(** * Travel assistant: router, flight-status client, analytics client, web handler

    A shallow embedding of the Python sources

      - agents/inquiry_router_agent.py   (InquiryRouterAgent)
      - agents/flight_status_agent.py    (FlightStatusAgent)
      - agents/flight_analytics_agent.py (FlightAnalyticsAgent)
      - main.py                          (the /chat handler)

    Python [str] values are lists of Unicode code points, JSON-like values
    are the inductive [pyval], exceptions are values of [exn] carried by
    [outcome], and the calls that leave the process (the Gemini model, the
    AviationStack endpoint, the BigQuery client) are oracles of a [World]
    whose invocations are logged in a trace. *)

From Stdlib Require Import List NArith ZArith Bool String Ascii Lia.
From Stdlib Require Import DecimalString SpecFloat.
Import ListNotations.

Set Warnings "-register-all".

(** ** Strings *)

Definition str := list N.

(** An ASCII literal as a Python string. *)
Definition lit (s : string) : str := map N_of_ascii (list_ascii_of_string s).

Definition cp_eqb (a b : N) : bool := N.eqb a b.

Fixpoint str_eqb (a b : str) : bool :=
  match a, b with
  | [], [] => true
  | x :: a', y :: b' => cp_eqb x y && str_eqb a' b'
  | _, _ => false
  end.

Fixpoint starts_with (p s : str) : bool :=
  match p, s with
  | [], _ => true
  | x :: p', y :: s' => cp_eqb x y && starts_with p' s'
  | _ :: _, [] => false
  end.

(** Python's [needle in hay] on two strings. *)
Fixpoint str_contains (needle hay : str) : bool :=
  starts_with needle hay ||
  match hay with
  | [] => false
  | _ :: hay' => str_contains needle hay'
  end.

(** [sep.join(parts)]. *)
Fixpoint str_join (sep : str) (parts : list str) : str :=
  match parts with
  | [] => []
  | [p] => p
  | p :: rest => p ++ sep ++ str_join sep rest
  end.

(** [s.replace(c, by)] for a one-character pattern. *)
Definition str_replace1 (c : N) (by_ : str) (s : str) : str :=
  flat_map (fun x => if cp_eqb x c then by_ else [x]) s.

Definition in_range (lo hi c : N) : bool := (lo <=? c)%N && (c <=? hi)%N.

Definition is_ascii (c : N) : bool := (c <? 128)%N.
Definition ascii_upper_letter (c : N) : bool := in_range 65 90 c.
Definition ascii_lower_letter (c : N) : bool := in_range 97 122 c.
Definition ascii_digit (c : N) : bool := in_range 48 57 c.
(** The ASCII code points for which [str.isspace] holds. *)
Definition ascii_space (c : N) : bool :=
  in_range 9 13 c || in_range 28 31 c || cp_eqb c 32.

Definition ascii_to_upper (c : N) : N :=
  if ascii_lower_letter c then (c - 32)%N else c.
Definition ascii_to_lower (c : N) : N :=
  if ascii_upper_letter c then (c + 32)%N else c.

(** ** Values and exceptions *)

Inductive pyval : Type :=
| PNone
| PBool (b : bool)
| PInt (z : Z)
| PFloat (f : spec_float)
| PStr (s : str)
| PList (l : list pyval)
| PDict (d : list (str * pyval)).

Definition dict := list (str * pyval).

Inductive exn : Type :=
| RequestsTimeout          (* caught by [except requests.Timeout] *)
| RequestsConnectionError  (* caught by [except requests.ConnectionError] *)
| HTTPError
| JSONDecodeError
| AttributeError
| TypeError
| KeyError
| IndexError
| ValueError (msg : str)
| EnvironmentError (msg : str)
| LibraryError (tag : str). (* any other exception of a library call *)

Inductive outcome (A : Type) : Type :=
| Returned (a : A)
| Raised (e : exn).
Arguments Returned {A} a.
Arguments Raised {A} e.

(** ** What the Python runtime and its libraries supply

    The Unicode tables beyond ASCII, [json.loads], the [datetime]
    round trip of [_format_time], and the text of values and exceptions
    under [str()] are taken from the runtime. *)

Record Runtime : Type := {
  uni_alnum : N -> bool;          (* [str.isalnum] for code points >= 128 *)
  uni_decimal : N -> bool;        (* category Nd for code points >= 128 *)
  uni_space : N -> bool;          (* [str.isspace] for code points >= 128 *)
  uni_upper : str -> str;         (* [str.upper] on text that is not all ASCII *)
  uni_lower : str -> str;         (* [str.lower] on text that is not all ASCII *)
  uni_capitalize : str -> str;    (* [str.capitalize], same *)
  json_loads : str -> outcome pyval;
  (* [datetime.fromisoformat(s).strftime('%Y-%m-%d %H:%M UTC')] *)
  iso_display : str -> outcome str;
  str_other : pyval -> str;       (* [str()] of floats, lists and dicts *)
  schema_prompt : str;            (* [FlightDataSchema.get_schema_prompt()] *)
  exn_text : exn -> str           (* [str(e)] *)
}.

(** ** External services *)

Record http_response : Type := {
  status_code : Z;
  body : outcome pyval            (* [response.json()] *)
}.

Record bq_result : Type := {
  total_rows : Z;
  rows : list dict                (* [dict(row) for row in results] *)
}.

Record World : Type := {
  (* [model.generate_content(prompt).text] of 'models/gemini-1.5-pro' *)
  gemini : str -> outcome str;
  (* [requests.get(base_url, params={access_key, flight_iata}, timeout=8)] *)
  aviationstack : str -> outcome http_response;
  (* [bq_client.query(sql, job_config=...).result()] *)
  bigquery : pyval -> pyval -> outcome bq_result;
  (* [os.getenv('AVIATIONSTACK_API_KEY')] *)
  aviationstack_api_key : option str
}.

Inductive event : Type :=
| LLMCall (prompt : str)
| HTTPGet (flight_iata : str)
| BQQuery (sql params : pyval).

(** ** Computations: a trace of external calls and an outcome *)

Definition M (A : Type) : Type := list event -> outcome A * list event.

Definition ret {A} (a : A) : M A := fun t => (Returned a, t).
Definition raise {A} (e : exn) : M A := fun t => (Raised e, t).
Definition bind {A B} (m : M A) (k : A -> M B) : M B :=
  fun t => match m t with
           | (Returned a, t') => k a t'
           | (Raised e, t') => (Raised e, t')
           end.
Definition lift {A} (o : outcome A) : M A := fun t => (o, t).
Definition try_except {A} (m : M A) (h : exn -> M A) : M A :=
  fun t => match m t with
           | (Returned a, t') => (Returned a, t')
           | (Raised e, t') => h e t'
           end.
Definition call {A} (e : event) (o : outcome A) : M A :=
  fun t => (o, t ++ [e]).

Notation "x <- m ;; k" := (bind m (fun x => k))
  (at level 61, m at next level, right associativity).

Definition obind {A B} (o : outcome A) (k : A -> outcome B) : outcome B :=
  match o with
  | Returned a => k a
  | Raised e => Raised e
  end.

Notation "x <~ o ;; k" := (obind o (fun x => k))
  (at level 61, o at next level, right associativity).

(** ** Regular expressions of the [re] module, as far as the sources use them *)

Inductive regex : Type :=
| Cls (p : N -> bool)                          (* one code point of a class *)
| Bnd                                          (* \b *)
| Seq (r1 r2 : regex)
| Rep (p : N -> bool) (lo : nat) (hi : option nat) (* greedy p{lo,hi} / p+ *)
| Grp (r : regex).                             (* capturing group *)

Section Regex.
Variable word : N -> bool.
Variable X : Type.

Definition word_at (c : option N) : bool :=
  match c with
  | Some x => word x
  | None => false
  end.

(** Greedy bounded repetition with backtracking: take one more when
    allowed, fall back to stopping here. *)
Fixpoint rep (p : N -> bool) (lo : nat) (hi : option nat)
    (prev : option N) (s : str)
    (k : option N -> str -> option X) {struct s} : option X :=
  let stop := match lo with O => k prev s | S _ => None end in
  match hi with
  | Some O => stop
  | _ =>
    match s with
    | c :: s' =>
      if p c then
        match rep p (pred lo) (option_map pred hi) (Some c) s' k with
        | Some x => Some x
        | None => stop
        end
      else stop
    | [] => stop
    end
  end.

(** [rmatch r prev s caps k]: match [r] at the head of [s], where [prev]
    is the code point before it; [k] continues with the rest. *)
Fixpoint rmatch (r : regex) (prev : option N) (s : str) (caps : list str)
    (k : option N -> str -> list str -> option X) : option X :=
  match r with
  | Cls p =>
    match s with
    | c :: s' => if p c then k (Some c) s' caps else None
    | [] => None
    end
  | Bnd =>
    if xorb (word_at prev) (word_at (hd_error s)) then k prev s caps
    else None
  | Seq r1 r2 =>
    rmatch r1 prev s caps (fun prev' s' caps' => rmatch r2 prev' s' caps' k)
  | Rep p lo hi =>
    rep p lo hi prev s (fun prev' s' => k prev' s' caps)
  | Grp r1 =>
    rmatch r1 prev s caps (fun prev' s' caps' =>
      k prev' s' (caps' ++ [firstn (List.length s - List.length s') s]))
  end.
End Regex.

Arguments rep {X} p lo hi prev s k.
Arguments rmatch word {X} r prev s caps k.

(** The code point just before a position: the last of [pre], or [prev]
    when [pre] is empty. *)
Definition char_before (prev : option N) (pre : str) : option N :=
  fold_left (fun _ c => Some c) pre prev.

(** [re.search]: the leftmost position at which the pattern matches;
    the result lists the captured groups. *)
Fixpoint search_from (word : N -> bool) (r : regex) (prev : option N)
    (s : str) : option (list str) :=
  match rmatch word r prev s [] (fun _ _ caps => Some caps) with
  | Some caps => Some caps
  | None =>
    match s with
    | [] => None
    | c :: s' => search_from word r (Some c) s'
    end
  end.

Section Text.
Variable rt : Runtime.

(** \w, \d and \s of a [str] pattern. *)
Definition re_word (c : N) : bool :=
  if is_ascii c
  then ascii_upper_letter c || ascii_lower_letter c || ascii_digit c
       || cp_eqb c 95
  else uni_alnum rt c.
Definition re_digit (c : N) : bool :=
  if is_ascii c then ascii_digit c else uni_decimal rt c.
Definition is_space (c : N) : bool :=
  if is_ascii c then ascii_space c else uni_space rt c.

Definition re_search (r : regex) (s : str) : option (list str) :=
  search_from re_word r None s.

Definition str_upper (s : str) : str :=
  if forallb is_ascii s then map ascii_to_upper s else uni_upper rt s.
Definition str_lower (s : str) : str :=
  if forallb is_ascii s then map ascii_to_lower s else uni_lower rt s.
Definition str_capitalize (s : str) : str :=
  if forallb is_ascii s then
    match s with
    | [] => []
    | c :: s' => ascii_to_upper c :: map ascii_to_lower s'
    end
  else uni_capitalize rt s.

Fixpoint lstrip (s : str) : str :=
  match s with
  | c :: s' => if is_space c then lstrip s' else s
  | [] => []
  end.
Definition str_strip (s : str) : str := rev (lstrip (rev (lstrip s))).
End Text.

(** [A-Z] without and with [re.IGNORECASE]; under the flag a [str] pattern
    also takes the four code points whose case mapping lands in the range. *)
Definition AZ (c : N) : bool := ascii_upper_letter c.
Definition AZ_ignorecase (c : N) : bool :=
  ascii_upper_letter c || ascii_lower_letter c
  || cp_eqb c 304 || cp_eqb c 305 || cp_eqb c 383 || cp_eqb c 8490.

(** A lower-case ASCII letter of a pattern compiled with [re.IGNORECASE]. *)
Definition letter_ignorecase (l : ascii) (c : N) : bool :=
  cp_eqb c (N_of_ascii l) || cp_eqb c (N_of_ascii l - 32).

(** r'\b([A-Z]{2}\d{1,4})\b' *)
Definition flight_number_regex (rt : Runtime) (letter : N -> bool) : regex :=
  Seq Bnd
    (Seq (Grp (Seq (Rep letter 2 (Some 2)) (Rep (re_digit rt) 1 (Some 4))))
         Bnd).

(** ** Python values: truth, text, containers *)

Fixpoint dict_get (d : dict) (k : str) : option pyval :=
  match d with
  | [] => None
  | (k', v) :: d' => if str_eqb k' k then Some v else dict_get d' k
  end.

(** [d[k] = v]: overwrite in place, or append a new key. *)
Fixpoint dict_set (d : dict) (k : str) (v : pyval) : dict :=
  match d with
  | [] => [(k, v)]
  | (k', v') :: d' =>
    if str_eqb k' k then (k', v) :: d' else (k', v') :: dict_set d' k v
  end.

Definition dict_has (d : dict) (k : str) : bool :=
  match dict_get d k with
  | Some _ => true
  | None => false
  end.

Definition float_is_zero (f : spec_float) : bool :=
  match f with
  | S754_zero _ => true
  | _ => false
  end.

Definition truthy (v : pyval) : bool :=
  match v with
  | PNone => false
  | PBool b => b
  | PInt z => negb (Z.eqb z 0)
  | PFloat f => negb (float_is_zero f)
  | PStr s => negb (Nat.eqb (List.length s) 0)
  | PList l => negb (Nat.eqb (List.length l) 0)
  | PDict d => negb (Nat.eqb (List.length d) 0)
  end.

(** [a or b]. *)
Definition py_or (a b : pyval) : pyval := if truthy a then a else b.

Definition str_of_Z (z : Z) : str := lit (NilZero.string_of_int (Z.to_int z)).

(** [str(v)], which is also what an f-string field [{v}] prints. *)
Definition py_str (rt : Runtime) (v : pyval) : str :=
  match v with
  | PNone => lit "None"
  | PBool true => lit "True"
  | PBool false => lit "False"
  | PInt z => str_of_Z z
  | PStr s => s
  | _ => str_other rt v
  end.

(** [v.get(key, default)]. *)
Definition py_get (v : pyval) (key : str) (default : pyval) : outcome pyval :=
  match v with
  | PDict d =>
    Returned (match dict_get d key with Some x => x | None => default end)
  | _ => Raised AttributeError
  end.

(** [v[key]] for a string key. *)
Definition py_getitem (v : pyval) (key : str) : outcome pyval :=
  match v with
  | PDict d =>
    match dict_get d key with
    | Some x => Returned x
    | None => Raised KeyError
    end
  | _ => Raised TypeError
  end.

(** [v[0]]. *)
Definition py_index0 (v : pyval) : outcome pyval :=
  match v with
  | PList (x :: _) => Returned x
  | PList [] => Raised IndexError
  | PStr (c :: _) => Returned (PStr [c])
  | PStr [] => Raised IndexError
  | PDict _ => Raised KeyError
  | _ => Raised TypeError
  end.

Definition py_len (v : pyval) : outcome nat :=
  match v with
  | PStr s => Returned (List.length s)
  | PList l => Returned (List.length l)
  | PDict d => Returned (List.length d)
  | _ => Raised TypeError
  end.

(** [key in v] for a string key. *)
Definition py_in (key : str) (v : pyval) : outcome bool :=
  match v with
  | PDict d => Returned (dict_has d key)
  | PList l =>
    Returned (existsb (fun x => match x with
                                | PStr s => str_eqb key s
                                | _ => false
                                end) l)
  | PStr s => Returned (str_contains key s)
  | _ => Raised TypeError
  end.

Definition py_lower (rt : Runtime) (v : pyval) : outcome str :=
  match v with
  | PStr s => Returned (str_lower rt s)
  | _ => Raised AttributeError
  end.

Definition py_capitalize (rt : Runtime) (v : pyval) : outcome str :=
  match v with
  | PStr s => Returned (str_capitalize rt s)
  | _ => Raised AttributeError
  end.

Definition generate_content (w : World) (prompt : str) : M str :=
  call (LLMCall prompt) (gemini w prompt).

(** ** inquiry_router_agent.py *)

Definition classify_prompt (query : str) : str :=
  lit "Classify query: '" ++ query ++
  lit "'. Options: flight_status, flight_analytics. Respond ONLY with the category.".

Definition router_regex_hit (rt : Runtime) (query : str) : bool :=
  match re_search rt (flight_number_regex rt AZ_ignorecase) query with
  | Some _ => true
  | None => false
  end.

(** [InquiryRouterAgent.handle({"query": query})]. *)
Definition router_handle (rt : Runtime) (w : World) (query : str) : M dict :=
  if router_regex_hit rt query then
    ret [(lit "agent", PStr (lit "flight_status"))]
  else
    text <- generate_content w (classify_prompt query) ;;
    ret [(lit "agent", PStr (str_lower rt (str_strip rt text)))].


(** ** flight_status_agent.py *)

Definition nl : str := [10%N].

(** [FlightStatusAgent.__init__]: the key check, and [user_context or {}]. *)
Definition status_agent_init (w : World) (user_context : pyval)
  : outcome pyval :=
  match aviationstack_api_key w with
  | Some (_ :: _) => Returned (py_or user_context (PDict []))
  | _ => Raised (EnvironmentError
           (lit "AVIATIONSTACK_API_KEY is not set in environment variables."))
  end.

Definition _error_response (code message details suggestion : str) : dict :=
  [ (lit "code", PStr code);
    (lit "message", PStr message);
    (lit "details", PStr details);
    (lit "suggestion", PStr suggestion) ].

(** The regex is applied to [query.upper()], without [re.IGNORECASE]. *)
Definition _extract_flight_number (rt : Runtime) (query : str) : option str :=
  match re_search rt (flight_number_regex rt AZ) (str_upper rt query) with
  | Some (g :: _) => Some g
  | _ => None
  end.

(** [response.raise_for_status()]. *)
Definition raise_for_status (r : http_response) : outcome unit :=
  if (400 <=? status_code r)%Z && (status_code r <? 600)%Z
  then Raised HTTPError
  else Returned tt.

Definition _fetch_flight_data (w : World) (flight_number : str) : M pyval :=
  response <- call (HTTPGet flight_number) (aviationstack w flight_number) ;;
  _ <- lift (raise_for_status response) ;;
  data <- lift (body response) ;;
  d <- lift (py_get data (lit "data") PNone) ;;
  if negb (truthy d) then ret PNone
  else
    d' <- lift (py_getitem data (lit "data")) ;;
    n <- lift (py_len d') ;;
    if Nat.eqb n 0 then ret PNone
    else
      d'' <- lift (py_getitem data (lit "data")) ;;
      lift (py_index0 d'').

Definition _format_time (rt : Runtime) (timestr : pyval) : pyval :=
  if negb (truthy timestr) then PStr (lit "N/A")
  else
    match timestr with
    | PStr s =>
      match iso_display rt (str_replace1 90 (lit "+00:00") s) with
      | Returned t => PStr t
      | Raised _ => timestr
      end
    | _ => timestr (* no [replace] attribute: caught, the value is returned *)
    end.

(** [user.lower() in a.lower() or user.lower() in b.lower()], guarded by
    the truth of [user]; [a.lower()] is only reached after [user.lower()]. *)
Definition preferred_in (rt : Runtime) (user : pyval) (fields : list pyval)
  : outcome bool :=
  if truthy user then
    (fix any (fs : list pyval) : outcome bool :=
       match fs with
       | [] => Returned false
       | f :: fs' =>
         u <~ py_lower rt user ;;
         x <~ py_lower rt f ;;
         if str_contains u x then Returned true else any fs'
       end) fields
  else Returned false.

(** The entries of [lines] before they are joined. *)
Definition report_lines (rt : Runtime) (user_context : pyval)
    (flight_number : str) (flight : pyval) : outcome (list str) :=
  airline0 <~ py_get flight (lit "airline") (PDict []) ;;
  airline <~ py_get airline0 (lit "name") (PStr (lit "Unknown Airline")) ;;
  status0 <~ py_get flight (lit "flight_status") (PStr (lit "Unknown")) ;;
  status <~ py_capitalize rt status0 ;;
  dep <~ py_get flight (lit "departure") (PDict []) ;;
  arr <~ py_get flight (lit "arrival") (PDict []) ;;
  dep_airport <~ py_get dep (lit "airport")
                   (PStr (lit "Unknown Departure Airport")) ;;
  dep_city0 <~ py_get dep (lit "city") PNone ;;
  let dep_city := py_or dep_city0 dep_airport in
  dep_code <~ py_get dep (lit "iata") (PStr (lit "N/A")) ;;
  arr_airport <~ py_get arr (lit "airport")
                   (PStr (lit "Unknown Arrival Airport")) ;;
  arr_city0 <~ py_get arr (lit "city") PNone ;;
  let arr_city := py_or arr_city0 arr_airport in
  arr_code <~ py_get arr (lit "iata") (PStr (lit "N/A")) ;;
  dep_scheduled <~ py_get dep (lit "scheduled") PNone ;;
  let sched_dep := _format_time rt dep_scheduled in
  dep_actual <~ py_get dep (lit "actual") PNone ;;
  let actual_dep := _format_time rt dep_actual in
  arr_scheduled <~ py_get arr (lit "scheduled") PNone ;;
  let sched_arr := _format_time rt arr_scheduled in
  arr_estimated <~ py_get arr (lit "estimated") PNone ;;
  let est_arr := _format_time rt arr_estimated in
  gate0 <~ py_get dep (lit "gate") PNone ;;
  let gate := py_or gate0 (PStr (lit "N/A")) in
  terminal0 <~ py_get dep (lit "terminal") PNone ;;
  let terminal := py_or terminal0 (PStr (lit "N/A")) in
  delay <~ py_get dep (lit "delay") PNone ;;
  let delay_str :=
    if truthy delay
    then lit "Departure Delay: " ++ py_str rt delay ++ lit " min"
    else lit "On time" in
  user_airline <~ py_get user_context (lit "preferred_airline") PNone ;;
  user_airport <~ py_get user_context (lit "preferred_airport") PNone ;;
  hit_airline <~ preferred_in rt user_airline [airline] ;;
  let personalization1 :=
    if hit_airline
    then nl ++ lit "[Personalized] This is your preferred airline!"
    else [] in
  hit_airport <~ preferred_in rt user_airport [dep_city; arr_city] ;;
  let personalization :=
    if hit_airport
    then personalization1 ++ nl
         ++ lit "[Personalized] This route includes your preferred airport!"
    else personalization1 in
  let lines :=
    [ lit "Flight Status Report for " ++ flight_number ++ lit " ("
        ++ py_str rt airline ++ lit ")";
      lit "Status: " ++ status;
      lit "Route: " ++ py_str rt dep_city ++ lit " (" ++ py_str rt dep_code
        ++ lit ") " ++ [226; 8224; 8217]%N ++ lit " " ++ py_str rt arr_city
        ++ lit " (" ++ py_str rt arr_code ++ lit ")";
      lit "Scheduled Departure: " ++ py_str rt sched_dep
        ++ lit " | Actual Departure: " ++ py_str rt actual_dep;
      lit "Scheduled Arrival: " ++ py_str rt sched_arr
        ++ lit " | Estimated Arrival: " ++ py_str rt est_arr;
      lit "Terminal: " ++ py_str rt terminal ++ lit " | Gate: "
        ++ py_str rt gate;
      delay_str ] in
  Returned (match personalization with
            | [] => lines
            | _ :: _ => lines ++ [personalization]
            end).

Definition _format_flight_status (rt : Runtime) (user_context : pyval)
    (flight_number : str) (flight : pyval) : outcome str :=
  lines <~ report_lines rt user_context flight_number flight ;;
  Returned (str_join nl lines).

Definition summary_prompt (raw_status : str) : str :=
  lit "Summarize the following flight status for a traveler in 2-3 sentences, focusing on what matters most:"
  ++ nl ++ raw_status.

Definition status_except (rt : Runtime) (e : exn) : dict :=
  match e with
  | RequestsTimeout =>
    _error_response (lit "TIMEOUT")
      (lit "The flight status service is currently slow.")
      (lit "Request to AviationStack timed out.")
      (lit "Please try again in a moment.")
  | RequestsConnectionError =>
    _error_response (lit "NETWORK_ERROR")
      (lit "Unable to connect to the flight status service.")
      (lit "Network connection error.")
      (lit "Check your internet connection and try again.")
  | _ =>
    _error_response (lit "SYSTEM_ERROR")
      (lit "An unexpected error occurred.")
      (exn_text rt e)
      (lit "Please try again later or contact support if the issue persists.")
  end.

(** The body of the [try] block of [handle]. *)
Definition status_lookup (rt : Runtime) (w : World) (user_context : pyval)
    (flight_number : str) : M dict :=
  flight_data <- _fetch_flight_data w flight_number ;;
  if negb (truthy flight_data) then
    ret (_error_response (lit "NOT_FOUND")
           (lit "No such flight exists for: " ++ flight_number ++ lit ".")
           (lit "Flight number not found in AviationStack data.")
           (lit "Double-check the flight number or try a different airline/date."))
  else
    raw_status <- lift (_format_flight_status rt user_context
                          flight_number flight_data) ;;
    text <- generate_content w (summary_prompt raw_status) ;;
    ret [ (lit "code", PStr (lit "SUCCESS"));
          (lit "message", PStr (lit "Flight status retrieved successfully."));
          (lit "data", PStr (str_strip rt text)) ].

(** [FlightStatusAgent.handle({"query": query})] of an agent constructed
    with [user_context]. *)
Definition status_handle (rt : Runtime) (w : World) (user_context : pyval)
    (query : str) : M dict :=
  match _extract_flight_number rt query with
  | Some ((_ :: _) as flight_number) =>
    try_except (status_lookup rt w user_context flight_number)
               (fun e => ret (status_except rt e))
  | _ =>
    ret (_error_response (lit "INVALID_INPUT")
           (lit "Please provide a valid flight number (e.g., AA123).")
           (lit "No valid flight number found in the query.")
           (lit "Try entering a flight number in the format AA123."))
  end.

(** ** flight_analytics_agent.py *)

Definition dq : str := [34%N].

Definition sql_prompt (rt : Runtime) (query : str) : str :=
  lit "
        Given this user query: " ++ dq ++ query ++ dq ++ lit "
        
        " ++ schema_prompt rt ++ lit "
        
        Generate a JSON response with:
        1. A valid BigQuery SQL query
        2. A list of parameters needed
        3. The query type (e.g., 'on_time_airlines', 'day_of_week_delays', 'general_analytics')
        4. Any extracted values (airports, year, limit)

        Rules:
        1. SQL must be parameterized
        2. Add LIMIT 50
        3. Handle NULLs
        4. Never include price-related queries
        5. Use proper BigQuery syntax
        6. Include proper error handling
        7. Use the provided schema and query patterns when applicable

        Return ONLY the JSON, no other text.
        ".

Definition required_keys : list str :=
  [lit "sql"; lit "parameters"; lit "query_type"; lit "extracted_values"].

(** [all(key in result for key in keys)]. *)
Fixpoint all_keys_in (keys : list str) (result : pyval) : outcome bool :=
  match keys with
  | [] => Returned true
  | key :: keys' =>
    b <~ py_in key result ;;
    if b then all_keys_in keys' result else Returned false
  end.

Definition _validate_and_structure_sql (rt : Runtime) (w : World)
    (query : str) : M pyval :=
  try_except
    (text <- generate_content w (sql_prompt rt query) ;;
     result <- lift (json_loads rt (str_strip rt text)) ;;
     ok <- lift (all_keys_in required_keys result) ;;
     if negb ok
     then raise (ValueError (lit "Invalid response structure from Gemini"))
     else ret result)
    (fun e =>
       ret (PDict
         [ (lit "error", PStr (lit "Failed to validate query: " ++ exn_text rt e));
           (lit "sql", PNone);
           (lit "parameters", PList []);
           (lit "query_type", PStr (lit "error"));
           (lit "extracted_values", PDict []) ])).

(** The agent's own memory, as [__init__] leaves it. *)
Definition initial_memory : dict :=
  [ (lit "last_query_type", PNone);
    (lit "last_origin", PNone);
    (lit "last_destination", PNone);
    (lit "last_year", PNone);
    (lit "last_limit", PNone) ].

Definition update_field (key slot : str) (extracted_values : pyval)
    (memory : dict) : outcome dict :=
  present <~ py_in key extracted_values ;;
  if present then
    v <~ py_getitem extracted_values key ;;
    Returned (dict_set memory slot v)
  else Returned memory.

Definition _update_memory (memory : dict) (extracted_values : pyval)
  : outcome dict :=
  m1 <~ update_field (lit "origin") (lit "last_origin") extracted_values memory ;;
  m2 <~ update_field (lit "destination") (lit "last_destination") extracted_values m1 ;;
  m3 <~ update_field (lit "year") (lit "last_year") extracted_values m2 ;;
  update_field (lit "limit") (lit "last_limit") extracted_values m3.

Definition row_get (rt : Runtime) (row : dict) (col : str) : str :=
  match dict_get row col with
  | Some v => py_str rt v
  | None => []
  end.

Definition _format_results (rt : Runtime) (data : list dict) : str :=
  match data with
  | [] => lit "No results found"
  | first :: _ =>
    let columns := map fst first in
    let header :=
      str_join (lit " | ") columns ++ nl ++ repeat 45%N 50 ++ nl in
    let body :=
      flat_map (fun row =>
                  str_join (lit " | ") (map (row_get rt row) columns) ++ nl)
               (firstn 5 data) in
    let tail :=
      if Nat.ltb 5 (List.length data)
      then nl ++ lit "Showing 5 of " ++ str_of_Z (Z.of_nat (List.length data))
           ++ lit " records"
      else [] in
    header ++ body ++ tail
  end.

Definition analytics_summary_prompt (rt : Runtime) (query_type : pyval)
    (table : str) : str :=
  lit "
            Summarize these flight analytics results in 2-3 sentences for a human traveler.
            Query type: " ++ py_str rt query_type ++ lit "
            Results:
            " ++ table ++ lit "
            ".

(** [FlightAnalyticsAgent().handle({"query": query})]. *)
Definition analytics_handle (rt : Runtime) (w : World) (query : str)
  : M dict :=
  validation_result <- _validate_and_structure_sql rt w query ;;
  has_error <- lift (py_in (lit "error") validation_result) ;;
  if has_error then
    message <- lift (py_getitem validation_result (lit "error")) ;;
    ret [ (lit "code", PStr (lit "VALIDATION_ERROR"));
          (lit "message", message);
          (lit "details", PStr (lit "Failed to validate query structure"));
          (lit "suggestion", PStr (lit "Please rephrase your analytics question.")) ]
  else
    extracted_values <- lift (py_getitem validation_result (lit "extracted_values")) ;;
    _ <- lift (_update_memory initial_memory extracted_values) ;;
    try_except
      (sql <- lift (py_getitem validation_result (lit "sql")) ;;
       parameters <- lift (py_getitem validation_result (lit "parameters")) ;;
       results <- call (BQQuery sql parameters) (bigquery w sql parameters) ;;
       if Z.eqb (total_rows results) 0 then
         ret [ (lit "code", PStr (lit "NOT_FOUND"));
               (lit "message", PStr (lit "No matching records found."));
               (lit "details", PStr []);
               (lit "suggestion", PStr (lit "Try a different query.")) ]
       else
         let table := _format_results rt (rows results) in
         query_type <- lift (py_getitem validation_result (lit "query_type")) ;;
         text <- generate_content w (analytics_summary_prompt rt query_type table) ;;
         ret [ (lit "code", PStr (lit "SUCCESS"));
               (lit "message", PStr (lit "Analytics summary generated."));
               (lit "data", PStr (str_strip rt text));
               (lit "query_type", query_type) ])
      (fun e =>
         ret [ (lit "code", PStr (lit "SYSTEM_ERROR"));
               (lit "message", PStr (lit "Analytics error."));
               (lit "details", PStr (exn_text rt e));
               (lit "suggestion", PStr (lit "Please try again later.")) ]).

(** ** main.py *)

Definition word_ignorecase (s : string) : regex :=
  match list_ascii_of_string s with
  | [] => Rep (fun _ => false) 0 (Some 0)
  | c :: cs =>
    fold_left (fun r x => Seq r (Cls (letter_ignorecase x))) cs
              (Cls (letter_ignorecase c))
  end.

(** re.compile(r'from\s+([A-Z]{3})\s+to\s+([A-Z]{3})', re.IGNORECASE) *)
Definition ROUTE_REGEX (rt : Runtime) : regex :=
  Seq (word_ignorecase "from")
 (Seq (Rep (is_space rt) 1 None)
 (Seq (Grp (Rep AZ_ignorecase 3 (Some 3)))
 (Seq (Rep (is_space rt) 1 None)
 (Seq (word_ignorecase "to")
 (Seq (Rep (is_space rt) 1 None)
      (Grp (Rep AZ_ignorecase 3 (Some 3)))))))).

Definition route_match (rt : Runtime) (user_query : str)
  : option (str * str) :=
  match re_search rt (ROUTE_REGEX rt) user_query with
  | Some (g1 :: g2 :: _) => Some (g1, g2)
  | _ => None
  end.

Record Session : Type := {
  user_context : option pyval;   (* session.get('user_context', {}) *)
  memory : option dict           (* session.get('memory', {}) *)
}.

Record Request : Type := {
  req_query : str;               (* request.json['query'] *)
  req_subscribe : pyval          (* request.json.get('subscribe') *)
}.

(** The route step of [chat]: the query that goes on to the router, and
    the memory after the step. *)
Definition carry_route (rt : Runtime) (user_query : str) (memory : dict)
  : str * dict :=
  match route_match rt user_query with
  | Some (g1, g2) =>
    let origin := str_upper rt g1 in
    let dest := str_upper rt g2 in
    (user_query,
     dict_set (dict_set memory (lit "origin") (PStr origin))
              (lit "dest") (PStr dest))
  | None =>
    match dict_get memory (lit "origin"), dict_get memory (lit "dest") with
    | Some origin, Some dest =>
      (user_query ++ lit " from " ++ py_str rt origin ++ lit " to "
         ++ py_str rt dest,
       memory)
    | _, _ => (user_query, memory)
    end
  end.

Definition track_intent (rt : Runtime) (user_query : str) (memory : dict)
  : dict :=
  if str_contains (lit "analytics") (str_lower rt user_query)
     || str_contains (lit "show me") (str_lower rt user_query)
  then dict_set memory (lit "last_intent") (PStr (lit "analytics"))
  else memory.

Definition default {A : Type} (o : option A) (d : A) : A :=
  match o with
  | Some a => a
  | None => d
  end.

(** What [chat] hands to the router, and what it writes back to the
    session before routing. *)
Definition chat_prepare (rt : Runtime) (s : Session) (r : Request)
  : str * Session :=
  let (user_query, memory1) :=
    carry_route rt (req_query r) (default (memory s) []) in
  let memory2 := track_intent rt user_query memory1 in
  (user_query, {| user_context := user_context s; memory := Some memory2 |}).

Definition routed_to_status (routing_result : dict) : outcome bool :=
  match dict_get routing_result (lit "agent") with
  | Some (PStr a) => Returned (str_eqb a (lit "flight_status"))
  | Some _ => Returned false
  | None => Raised KeyError
  end.

(** The two branches of [chat].  The status agent is constructed first,
    and its key check may raise; the constructors of the model and
    warehouse clients are taken to return. *)
Definition dispatch (rt : Runtime) (w : World) (user_context : pyval)
    (to_status : bool) (user_query : str) : M dict :=
  if to_status then
    ctx <- lift (status_agent_init w user_context) ;;
    status_handle rt w ctx user_query
  else
    analytics_handle rt w user_query.

(** The placeholder for the subscription feature. *)
Definition add_subscription (r : Request) (response : dict) : dict :=
  if truthy (req_subscribe r)
  then dict_set response (lit "subscription")
         (PStr (lit "Subscription feature coming soon!"))
  else response.

(** The /chat handler; the response is what [jsonify] receives. *)
Definition chat (rt : Runtime) (w : World) (s : Session) (r : Request)
  : M (Session * dict) :=
  let (user_query, s') := chat_prepare rt s r in
  routing_result <- router_handle rt w user_query ;;
  to_status <- lift (routed_to_status routing_result) ;;
  response <- dispatch rt w (default (user_context s) (PDict []))
                to_status user_query ;;
  ret (s', add_subscription r response).

(** The [code] entry of a structured response. *)
Definition code_of (response : dict) : option pyval :=
  dict_get response (lit "code").

(** The warehouse calls of a trace. *)
Definition is_bq_call (e : event) : bool :=
  match e with
  | BQQuery _ _ => true
  | _ => false
  end.
Definition bq_calls (t : list event) : list event := filter is_bq_call t.

(** A runtime for ASCII text: nothing beyond ASCII is classified, JSON
    texts are looked up in a table, timestamps are not reformatted. *)
Definition json_table (table : list (str * pyval)) (text : str)
  : outcome pyval :=
  match dict_get table text with
  | Some v => Returned v
  | None => Raised JSONDecodeError
  end.

Definition ascii_runtime (table : list (str * pyval)) : Runtime := {|
  uni_alnum := fun _ => false;
  uni_decimal := fun _ => false;
  uni_space := fun _ => false;
  uni_upper := fun s => s;
  uni_lower := fun s => s;
  uni_capitalize := fun s => s;
  json_loads := json_table table;
  iso_display := fun _ => Raised (ValueError []);
  str_other := fun _ => lit "?";
  schema_prompt := lit "Table: flights";
  exn_text := fun _ => lit "error"
|}.

(** ** Sample runtimes, worlds and inputs *)

Definition rt_ascii : Runtime := ascii_runtime [].

(** A world in which every service is down. *)
Definition world_down : World := {|
  gemini := fun _ => Raised (LibraryError (lit "ServiceUnavailable"));
  aviationstack := fun _ => Raised RequestsConnectionError;
  bigquery := fun _ _ => Raised (LibraryError (lit "ServiceUnavailable"));
  aviationstack_api_key := Some (lit "key")
|}.

(** A world whose model answers every prompt with [answer] and whose
    flight endpoint answers every lookup with [response]. *)
Definition world_of (answer : str) (response : outcome http_response)
  : World := {|
  gemini := fun _ => Returned answer;
  aviationstack := fun _ => response;
  bigquery := fun _ _ => Returned {| total_rows := 0; rows := [] |};
  aviationstack_api_key := Some (lit "key")
|}.

Definition status_query : str := lit "What's the status of AA123?".
Definition analytics_query : str := lit "which airlines are most punctual".

Definition quoted (s : string) : str := dq ++ lit s ++ dq.

(** A model answer that is valid JSON, has the four required keys, and
    an [error] key besides. *)
Definition answer_with_error_text : str :=
  lit "{" ++ quoted "sql" ++ lit ": " ++ quoted "SELECT 1" ++ lit ", "
  ++ quoted "parameters" ++ lit ": [], "
  ++ quoted "query_type" ++ lit ": " ++ quoted "general_analytics" ++ lit ", "
  ++ quoted "extracted_values" ++ lit ": {}, "
  ++ quoted "error" ++ lit ": " ++ quoted "none" ++ lit "}".

Definition answer_with_error : pyval :=
  PDict [ (lit "sql", PStr (lit "SELECT 1"));
          (lit "parameters", PList []);
          (lit "query_type", PStr (lit "general_analytics"));
          (lit "extracted_values", PDict []);
          (lit "error", PStr (lit "none")) ].

(** A model answer that lacks [parameters]. *)
Definition answer_incomplete_text : str :=
  lit "{" ++ quoted "sql" ++ lit ": " ++ quoted "SELECT 1" ++ lit ", "
  ++ quoted "query_type" ++ lit ": " ++ quoted "general_analytics" ++ lit ", "
  ++ quoted "extracted_values" ++ lit ": {}}".

Definition answer_incomplete : pyval :=
  PDict [ (lit "sql", PStr (lit "SELECT 1"));
          (lit "query_type", PStr (lit "general_analytics"));
          (lit "extracted_values", PDict []) ].

(** A model answer whose [extracted_values] is a number. *)
Definition answer_bad_values_text : str :=
  lit "{" ++ quoted "sql" ++ lit ": " ++ quoted "SELECT 1" ++ lit ", "
  ++ quoted "parameters" ++ lit ": [], "
  ++ quoted "query_type" ++ lit ": " ++ quoted "general_analytics" ++ lit ", "
  ++ quoted "extracted_values" ++ lit ": 5}".

Definition answer_bad_values : pyval :=
  PDict [ (lit "sql", PStr (lit "SELECT 1"));
          (lit "parameters", PList []);
          (lit "query_type", PStr (lit "general_analytics"));
          (lit "extracted_values", PInt 5) ].

Definition rt_json : Runtime :=
  ascii_runtime [ (answer_with_error_text, answer_with_error);
                  (answer_incomplete_text, answer_incomplete);
                  (answer_bad_values_text, answer_bad_values) ].

Definition session_with_route : Session := {|
  user_context := None;
  memory := Some [ (lit "origin", PStr (lit "JFK"));
                   (lit "dest", PStr (lit "LAX")) ]
|}.

Definition empty_session : Session :=
  {| user_context := None; memory := None |}.

Definition request_of (q : string) : Request :=
  {| req_query := lit q; req_subscribe := PNone |}.

(** A flight record with the given departure [delay] entry, if any. *)
Definition flight_record (delay : option pyval) : dict :=
  [ (lit "flight_status", PStr (lit "active"));
    (lit "airline", PDict [(lit "name", PStr (lit "American Airlines"))]);
    (lit "departure",
     PDict ([ (lit "airport", PStr (lit "John F Kennedy International"));
              (lit "iata", PStr (lit "JFK"));
              (lit "scheduled", PStr (lit "2024-05-01T10:00:00+00:00")) ]
            ++ match delay with
               | Some v => [(lit "delay", v)]
               | None => []
               end));
    (lit "arrival",
     PDict [ (lit "airport", PStr (lit "Los Angeles International"));
             (lit "iata", PStr (lit "LAX")) ]) ].

(** A run that returns a structured response carrying the code [c]. *)
Definition returns_code (run : outcome dict * list event) (c : string)
  : Prop :=
  exists response,
    fst run = Returned response /\ code_of response = Some (PStr (lit c)).

(** A world whose flight endpoint knows of no flight. *)
Definition world_no_records : World :=
  world_of (lit "ok")
    (Returned {| status_code := 200;
                 body := Returned (PDict [(lit "data", PList [])]) |}).

(** Two worlds whose model and flight endpoint answer alike. *)
Definition same_responses (w1 w2 : World) : Prop :=
  (forall prompt, gemini w1 prompt = gemini w2 prompt)
  /\ (forall flight_iata,
        aviationstack w1 flight_iata = aviationstack w2 flight_iata).

(** A computation that returns from every starting trace. *)
Definition never_raises {A} (m : M A) : Prop :=
  forall t, exists a t', m t = (Returned a, t').

(** A computation is [tidy] when its outcome does not depend on the trace
    it starts from and it only appends to that trace. *)
Definition tidy {A} (m : M A) : Prop :=
  forall t, m t = (fst (m []), t ++ snd (m [])).

(** Two computations that agree from every trace. *)
Definition same {A} (m1 m2 : M A) : Prop := forall t, m1 t = m2 t.

(** A text with a flight number in it: a prefix, two letters of the class
    [letter], one to four digits and a rest, with a word boundary on each
    side of the number. *)
Definition has_flight_number (rt : Runtime) (letter : N -> bool) (q : str)
  : Prop :=
  exists pre a b ds post,
    q = pre ++ a :: b :: ds ++ post
    /\ letter a = true /\ letter b = true
    /\ (1 <= List.length ds <= 4)%nat
    /\ forallb (re_digit rt) ds = true
    /\ xorb (word_at (re_word rt) (char_before None pre)) (re_word rt a) = true
    /\ xorb (word_at (re_word rt) (char_before (Some b) ds))
            (word_at (re_word rt) (hd_error post)) = true.

(** The codes a response of the status client can carry. *)
Definition status_codes : list string :=
  ["INVALID_INPUT"; "NOT_FOUND"; "TIMEOUT"; "NETWORK_ERROR"; "SYSTEM_ERROR";
   "SUCCESS"]%string.

(** The flight endpoint answers the lookup of [flight_number] with a
    successful response whose JSON object lists [record] first. *)
Definition lists_first (w : World) (flight_number : str) (record : pyval)
  : Prop :=
  exists r d others,
    aviationstack w flight_number = Returned r
    /\ raise_for_status r = Returned tt
    /\ body r = Returned (PDict d)
    /\ dict_get d (lit "data") = Some (PList (record :: others)).

Definition is_str (v : pyval) : bool :=
  match v with
  | PStr _ => true
  | _ => false
  end.

Definition is_dict (v : pyval) : bool :=
  match v with
  | PDict _ => true
  | _ => false
  end.

(** An entry that is absent, or present with a value of the given kind. *)
Definition absent_or (kind : pyval -> bool) (entry : option pyval) : bool :=
  match entry with
  | Some v => kind v
  | None => true
  end.

(** A world that lists one record for every flight and whose model
    answers every prompt with [answer]. *)
Definition world_listing (answer : str) (record : pyval) : World :=
  world_of answer
    (Returned {| status_code := 200;
                 body := Returned (PDict [(lit "data", PList [record])]) |}).

(** A run that returns a structured response carrying the code [c] and
    leaves the trace [trace]. *)
Definition returns_code_with (run : outcome dict * list event) (c : string)
    (trace : list event) : Prop :=
  exists response,
    run = (Returned response, trace)
    /\ code_of response = Some (PStr (lit c)).

(** The extracted keys that [_update_memory] reads, each with the slot
    of the memory it writes. *)
Definition memory_slots : list (str * str) :=
  [ (lit "origin", lit "last_origin");
    (lit "destination", lit "last_destination");
    (lit "year", lit "last_year");
    (lit "limit", lit "last_limit") ].

(** The model's answer to the SQL-generation prompt for [query] parses
    to [v], and [v] passes the check of the four required keys. *)
Definition model_answers (rt : Runtime) (w : World) (query : str) (v : pyval)
  : Prop :=
  exists text,
    gemini w (sql_prompt rt query) = Returned text
    /\ json_loads rt (str_strip rt text) = Returned v
    /\ all_keys_in required_keys v = Returned true.

(** A structured query as the model is asked to give it. *)
Definition structured_query (sql parameters query_type : pyval) (ev : dict)
  : dict :=
  [ (lit "sql", sql);
    (lit "parameters", parameters);
    (lit "query_type", query_type);
    (lit "extracted_values", PDict ev) ].

Definition structured_query_text : str :=
  lit "{" ++ quoted "sql" ++ lit ": " ++ quoted "SELECT 1" ++ lit ", "
  ++ quoted "parameters" ++ lit ": [], "
  ++ quoted "query_type" ++ lit ": " ++ quoted "general_analytics" ++ lit ", "
  ++ quoted "extracted_values" ++ lit ": {}}".

(** A JSON array of the four key names. *)
Definition key_list_text : str :=
  lit "[" ++ quoted "sql" ++ lit ", " ++ quoted "parameters" ++ lit ", "
  ++ quoted "query_type" ++ lit ", " ++ quoted "extracted_values" ++ lit "]".

Definition key_list : pyval :=
  PList [ PStr (lit "sql"); PStr (lit "parameters");
          PStr (lit "query_type"); PStr (lit "extracted_values") ].

Definition rt_answers : Runtime :=
  ascii_runtime
    [ (structured_query_text,
       PDict (structured_query (PStr (lit "SELECT 1")) (PList [])
                (PStr (lit "general_analytics")) []));
      (key_list_text, key_list);
      (answer_bad_values_text, answer_bad_values) ].

(** A world whose model answers every prompt with [answer] and whose
    warehouse answers every query with [result]. *)
Definition world_warehouse (answer : str) (result : outcome bq_result)
  : World := {|
  gemini := fun _ => Returned answer;
  aviationstack := fun _ => Raised RequestsConnectionError;
  bigquery := fun _ _ => result;
  aviationstack_api_key := Some (lit "key")
|}.

(** The values that are neither text nor a container. *)
Definition is_scalar (v : pyval) : bool :=
  match v with
  | PNone | PBool _ | PInt _ | PFloat _ => true
  | _ => false
  end.

(** A request that does not ask for a subscription. *)
Definition plain_request (query : str) : Request :=
  {| req_query := query; req_subscribe := PNone |}.

(** A world without the flight endpoint's key. *)
Definition world_without_key : World := {|
  gemini := fun _ => Returned (lit "flight_status");
  aviationstack := fun _ => Raised RequestsConnectionError;
  bigquery := fun _ _ => Raised (LibraryError (lit "ServiceUnavailable"));
  aviationstack_api_key := None
|}.

Definition is_http_call (e : event) : bool :=
  match e with
  | HTTPGet _ => true
  | _ => false
  end.

(** The number of calls of a kind in a trace. *)
Definition count_calls (kind : event -> bool) (t : list event) : nat :=
  List.length (filter kind t).

(** * Properties *)

(** ** The trace discipline *)

Lemma tidy_ret {A} (a : A) : tidy (ret a).
Proof. intro t. unfold ret. simpl. now rewrite app_nil_r. Qed.

Lemma tidy_raise {A} (e : exn) : tidy (raise (A:=A) e).
Proof. intro t. unfold raise. simpl. now rewrite app_nil_r. Qed.

Lemma tidy_lift {A} (o : outcome A) : tidy (lift o).
Proof. intro t. unfold lift. simpl. now rewrite app_nil_r. Qed.

Lemma tidy_call {A} (e : event) (o : outcome A) : tidy (call e o).
Proof. intro t. reflexivity. Qed.

Lemma tidy_bind {A B} (m : M A) (k : A -> M B) :
  tidy m -> (forall a, tidy (k a)) -> tidy (bind m k).
Proof.
  intros Hm Hk t. unfold bind.
  rewrite (Hm t). destruct (m []) as [[a | e] t0]; simpl.
  - rewrite (Hk a (t ++ t0)), (Hk a t0). simpl. now rewrite app_assoc.
  - reflexivity.
Qed.

Lemma tidy_try {A} (m : M A) (h : exn -> M A) :
  tidy m -> (forall e, tidy (h e)) -> tidy (try_except m h).
Proof.
  intros Hm Hh t. unfold try_except.
  rewrite (Hm t). destruct (m []) as [[a | e] t0]; simpl.
  - reflexivity.
  - rewrite (Hh e (t ++ t0)), (Hh e t0). simpl. now rewrite app_assoc.
Qed.

Lemma tidy_if {A} (b : bool) (m1 m2 : M A) :
  tidy m1 -> tidy m2 -> tidy (if b then m1 else m2).
Proof. now destruct b. Qed.

Create HintDb tidy.
#[export] Hint Resolve tidy_ret tidy_raise tidy_lift tidy_call tidy_if : tidy.

Ltac tidy_step :=
  first [ apply tidy_bind; [ | intro ]
        | apply tidy_try; [ | intro ]
        | apply tidy_if
        | apply tidy_ret | apply tidy_raise | apply tidy_lift
        | apply tidy_call ].

Lemma tidy_generate_content w p : tidy (generate_content w p).
Proof. apply tidy_call. Qed.

Lemma tidy_router rt w q : tidy (router_handle rt w q).
Proof.
  unfold router_handle. destruct (router_regex_hit rt q).
  - apply tidy_ret.
  - repeat tidy_step.
Qed.

Lemma tidy_fetch w fn : tidy (_fetch_flight_data w fn).
Proof. unfold _fetch_flight_data. repeat tidy_step. Qed.

Lemma tidy_status_lookup rt w ctx fn : tidy (status_lookup rt w ctx fn).
Proof.
  unfold status_lookup. apply tidy_bind; [apply tidy_fetch | intro].
  repeat tidy_step.
Qed.

Lemma tidy_status rt w ctx q : tidy (status_handle rt w ctx q).
Proof.
  unfold status_handle.
  destruct (_extract_flight_number rt q) as [[| c fn] |];
    try apply tidy_ret.
  apply tidy_try; [apply tidy_status_lookup | intro; apply tidy_ret].
Qed.

Lemma tidy_validate rt w q : tidy (_validate_and_structure_sql rt w q).
Proof.
  unfold _validate_and_structure_sql.
  apply tidy_try; [| intro; apply tidy_ret].
  apply tidy_bind; [apply tidy_generate_content | intro].
  repeat tidy_step.
Qed.

Lemma tidy_analytics rt w q : tidy (analytics_handle rt w q).
Proof.
  unfold analytics_handle.
  apply tidy_bind; [apply tidy_validate | intro].
  apply tidy_bind; [apply tidy_lift | intro].
  apply tidy_if; [repeat tidy_step |].
  apply tidy_bind; [apply tidy_lift | intro].
  apply tidy_bind; [apply tidy_lift | intro].
  apply tidy_try; [| intro; apply tidy_ret].
  apply tidy_bind; [apply tidy_lift | intro].
  apply tidy_bind; [apply tidy_lift | intro].
  apply tidy_bind; [apply tidy_call | intro].
  apply tidy_if; [apply tidy_ret |].
  apply tidy_bind; [apply tidy_lift | intro].
  apply tidy_bind; [apply tidy_generate_content | intro].
  apply tidy_ret.
Qed.

(** ** The router *)

Lemma router_hit rt w query t :
  router_regex_hit rt query = true ->
  router_handle rt w query t
  = (Returned [(lit "agent", PStr (lit "flight_status"))], t).
Proof. unfold router_handle. now intros ->. Qed.

Lemma router_miss rt w query t :
  router_regex_hit rt query = false ->
  snd (router_handle rt w query t) = t ++ [LLMCall (classify_prompt query)].
Proof.
  unfold router_handle. intros ->.
  unfold bind, generate_content, call.
  destruct (gemini w (classify_prompt query)); reflexivity.
Qed.

Lemma router_miss_returned rt w query t text :
  router_regex_hit rt query = false ->
  gemini w (classify_prompt query) = Returned text ->
  router_handle rt w query t
  = (Returned [(lit "agent", PStr (str_lower rt (str_strip rt text)))],
     t ++ [LLMCall (classify_prompt query)]).
Proof.
  unfold router_handle. intros -> Hg.
  unfold bind, generate_content, call. now rewrite Hg.
Qed.

(** C1. When the carrier+number regex finds a match in the query, the
    router's [handle] returns the route tag 'flight_status' and the trace
    of external calls is left as it was: the model is not consulted.  When
    the regex finds no match, exactly one call is added to the trace, the
    classification prompt for that query. *)
Theorem router_regex_first rt w query t :
  (router_regex_hit rt query = true ->
   router_handle rt w query t
   = (Returned [(lit "agent", PStr (lit "flight_status"))], t))
  /\
  (router_regex_hit rt query = false ->
   snd (router_handle rt w query t) = t ++ [LLMCall (classify_prompt query)]).
Proof. split; [apply router_hit | apply router_miss]. Qed.

Lemma router_regex_first_witness :
  (router_regex_hit rt_ascii status_query = true /\
   router_handle rt_ascii world_down status_query []
   = (Returned [(lit "agent", PStr (lit "flight_status"))], []))
  /\
  (router_regex_hit rt_ascii analytics_query = false /\
   snd (router_handle rt_ascii world_down analytics_query [])
   = [] ++ [LLMCall (classify_prompt analytics_query)]).
Proof.
  split; split.
  - vm_compute. reflexivity.
  - apply (proj1 (router_regex_first rt_ascii world_down status_query [])).
    vm_compute. reflexivity.
  - vm_compute. reflexivity.
  - apply (proj2 (router_regex_first rt_ascii world_down analytics_query [])).
    vm_compute. reflexivity.
Defined.

(** ** Facts about the regex engine *)

Lemma char_before_app prev a b :
  char_before prev (a ++ b) = char_before (char_before prev a) b.
Proof. unfold char_before. apply fold_left_app. Qed.

(** What a successful repetition consumed. *)
Lemma rep_inv {X} p lo hi prev s (k : option N -> str -> option X) x :
  rep p lo hi prev s k = Some x ->
  exists n,
    (lo <= n)%nat /\ (n <= List.length s)%nat
    /\ match hi with Some h => (n <= h)%nat | None => True end
    /\ forallb p (firstn n s) = true
    /\ k (char_before prev (firstn n s)) (skipn n s) = Some x.
Proof.
  revert lo hi prev. induction s as [| c s IH]; intros lo hi prev H.
  - assert (Hs : match lo with O => k prev [] | S _ => None end = Some x).
    { destruct hi as [[| h] |]; exact H. }
    destruct lo; [| discriminate].
    exists 0%nat. simpl. repeat split; auto. destruct hi; [lia | exact I].
  - assert (Hcases :
      match lo with O => k prev (c :: s) | S _ => None end = Some x
      \/ (p c = true /\ hi <> Some 0%nat /\
          rep p (pred lo) (option_map pred hi) (Some c) s k = Some x)).
    { simpl in H.
      destruct hi as [[| h] |]; auto;
        (destruct (p c); auto;
         match type of H with
         | match ?r with _ => _ end = _ => destruct r eqn:Hr
         end; [right; repeat split; congruence | left; exact H]). }
    destruct Hcases as [Hs | (Hp & Hhi & Hr)].
    + destruct lo; [| discriminate].
      exists 0%nat. simpl. repeat split; auto; try lia.
      destruct hi; [lia | exact I].
    + apply IH in Hr. destruct Hr as (n & Hlo & Hn & Hb & Hall & Hk).
      exists (S n). simpl. rewrite Hp. repeat split; auto; try lia.
      destruct hi as [[| h] |]; simpl in *; try lia; congruence.
Qed.

(** A maximal run of the class is what the greedy repetition tries first. *)
Lemma rep_greedy {X} p lo hi prev taken rest
    (k : option N -> str -> option X) x :
  forallb p taken = true ->
  (lo <= List.length taken)%nat ->
  match hi with Some h => (List.length taken <= h)%nat | None => True end ->
  hi = Some (List.length taken)
  \/ match rest with c :: _ => p c = false | [] => True end ->
  k (char_before prev taken) rest = Some x ->
  rep p lo hi prev (taken ++ rest) k = Some x.
Proof.
  revert lo hi prev.
  induction taken as [| c taken IH]; intros lo hi prev Hall Hlo Hhi Hstop Hk.
  - simpl in *. assert (lo = 0)%nat as -> by lia.
    destruct Hstop as [-> | Hstop]; [destruct rest; exact Hk |].
    destruct rest as [| c rest].
    + destruct hi as [[| h] |]; exact Hk.
    + simpl. rewrite Hstop. destruct hi as [[| h] |]; exact Hk.
  - simpl in Hall. apply andb_true_iff in Hall. destruct Hall as [Hc Hall].
    assert (Hrec : rep p (pred lo) (option_map pred hi) (Some c)
                     (taken ++ rest) k = Some x).
    { apply IH; auto.
      - simpl in Hlo. lia.
      - destruct hi as [h |]; simpl in *; [lia | exact I].
      - destruct Hstop as [-> | Hstop]; [left; reflexivity | right; exact Hstop]. }
    simpl. rewrite Hc, Hrec.
    destruct hi as [[| h] |]; try reflexivity. simpl in Hhi. lia.
Qed.

Lemma search_from_inv word r prev s caps :
  search_from word r prev s = Some caps ->
  exists pre s',
    s = pre ++ s'
    /\ rmatch word r (char_before prev pre) s' [] (fun _ _ c => Some c)
       = Some caps.
Proof.
  revert prev. induction s as [| c s IH]; intros prev H; simpl in H.
  - destruct (rmatch word r prev [] [] (fun _ _ c => Some c)) eqn:E;
      [| discriminate].
    exists [], []. split; [reflexivity | simpl; congruence].
  - destruct (rmatch word r prev (c :: s) [] (fun _ _ c => Some c)) eqn:E.
    + exists [], (c :: s). split; [reflexivity | simpl; congruence].
    + apply IH in H. destruct H as (pre & s' & -> & H).
      exists (c :: pre), s'. split; [reflexivity | exact H].
Qed.

(** A match at any position makes the search succeed. *)
Lemma search_from_found word r prev pre s' caps :
  rmatch word r (char_before prev pre) s' [] (fun _ _ c => Some c)
  = Some caps ->
  exists caps', search_from word r prev (pre ++ s') = Some caps'.
Proof.
  revert prev. induction pre as [| c pre IH]; intros prev H.
  - simpl in *. destruct s'; simpl; rewrite H; eauto.
  - simpl.
    destruct (rmatch word r prev (c :: pre ++ s') [] (fun _ _ c => Some c));
      eauto.
Qed.

(** The shape of a match of r'\b([A-Z]{2}\d{1,4})\b': a word boundary, two
    letters, one to four digits, a word boundary; the group is the letters
    and the digits. *)
Lemma flight_regex_match rt letter prev s caps :
  rmatch (re_word rt) (flight_number_regex rt letter) prev s []
    (fun _ _ c => Some c) = Some caps ->
  exists a b ds post,
    s = a :: b :: ds ++ post
    /\ caps = [a :: b :: ds]
    /\ letter a = true /\ letter b = true
    /\ (1 <= List.length ds <= 4)%nat
    /\ forallb (re_digit rt) ds = true
    /\ xorb (word_at (re_word rt) prev) (re_word rt a) = true
    /\ xorb (word_at (re_word rt) (char_before (Some b) ds))
            (word_at (re_word rt) (hd_error post)) = true.
Proof.
  unfold flight_number_regex. cbn [rmatch]. intro H.
  destruct (xorb _ _) eqn:B1; [| discriminate].
  apply rep_inv in H. destruct H as (n & Hn & Hn' & Hn2 & Hl & H).
  assert (n = 2)%nat as -> by lia.
  destruct s as [| a [| b s]]; simpl in Hn'; try lia.
  simpl in Hl. rewrite !andb_true_iff in Hl. destruct Hl as (Ha & Hb & _).
  cbn [firstn skipn char_before fold_left] in H.
  apply rep_inv in H. destruct H as (m & Hm & Hm' & Hm2 & Hd & H).
  cbn [rmatch] in H.
  destruct (xorb (word_at (re_word rt) (char_before (Some b) (firstn m s))) _)
    eqn:B2; [| discriminate].
  injection H as <-.
  exists a, b, (firstn m s), (skipn m s).
  rewrite firstn_skipn. split; [reflexivity |]. split.
  - assert (Hlen : (List.length (a :: b :: s) - List.length (skipn m s))%nat
                   = S (S m)).
    { rewrite length_skipn.
      change (List.length (a :: b :: s)) with (S (S (List.length s))). lia. }
    change ([firstn (List.length (a :: b :: s) - List.length (skipn m s))
               (a :: b :: s)] = [a :: b :: firstn m s]).
    rewrite Hlen. reflexivity.
  - rewrite length_firstn. repeat split; auto; try lia.
Qed.

(** A flight number found by the pattern has at least three code points. *)
Lemma flight_regex_group rt letter s caps :
  re_search rt (flight_number_regex rt letter) s = Some caps ->
  exists g, caps = [g] /\ (3 <= List.length g)%nat.
Proof.
  unfold re_search. intro H.
  apply search_from_inv in H. destruct H as (pre & s' & _ & H).
  apply flight_regex_match in H.
  destruct H as (a & b & ds & post & _ & -> & _ & _ & Hds & _).
  eexists. split; [reflexivity | simpl; lia].
Qed.

(** The router's regex finds a match exactly when the query has, at a
    word boundary, two letters and one to four digits followed by a word
    boundary.  The converse direction uses that a digit is a word
    character, as it is in the Unicode tables. *)
Lemma router_hit_shape rt query :
  router_regex_hit rt query = true ->
  exists pre a b ds post,
    query = pre ++ a :: b :: ds ++ post
    /\ AZ_ignorecase a = true /\ AZ_ignorecase b = true
    /\ (1 <= List.length ds <= 4)%nat
    /\ forallb (re_digit rt) ds = true
    /\ xorb (word_at (re_word rt) (char_before None pre)) (re_word rt a) = true
    /\ xorb (word_at (re_word rt) (char_before (Some b) ds))
            (word_at (re_word rt) (hd_error post)) = true.
Proof.
  unfold router_regex_hit, re_search.
  destruct (search_from _ _ _ _) as [caps |] eqn:E; [| discriminate].
  intros _. apply search_from_inv in E. destruct E as (pre & s' & -> & H).
  apply flight_regex_match in H.
  destruct H as (a & b & ds & post & -> & _ & Ha & Hb & Hds & Hd & B1 & B2).
  exists pre, a, b, ds, post. repeat split; auto; lia.
Qed.

Lemma char_before_nonempty prev ds :
  ds <> [] -> exists c, char_before prev ds = Some c /\ In c ds.
Proof.
  revert prev. induction ds as [| d ds IH]; intros prev H; [congruence |].
  destruct ds as [| d' ds].
  - exists d. simpl. auto.
  - destruct (IH (Some d)) as (c & Hc & Hin); [discriminate |].
    exists c. split; [exact Hc | right; exact Hin].
Qed.

Lemma router_shape_hit rt pre a b ds post :
  (forall c, re_digit rt c = true -> re_word rt c = true) ->
  AZ_ignorecase a = true -> AZ_ignorecase b = true ->
  (1 <= List.length ds <= 4)%nat ->
  forallb (re_digit rt) ds = true ->
  xorb (word_at (re_word rt) (char_before None pre)) (re_word rt a) = true ->
  xorb (word_at (re_word rt) (char_before (Some b) ds))
       (word_at (re_word rt) (hd_error post)) = true ->
  router_regex_hit rt (pre ++ a :: b :: ds ++ post) = true.
Proof.
  intros Hdw Ha Hb Hlen Hd B1 B2.
  unfold router_regex_hit, re_search.
  destruct (search_from_found (re_word rt)
              (flight_number_regex rt AZ_ignorecase) None pre
              (a :: b :: ds ++ post) [a :: b :: ds]) as (caps & ->);
    [| reflexivity].
  unfold flight_number_regex. cbn [rmatch hd_error word_at].
  rewrite B1.
  apply (rep_greedy AZ_ignorecase 2 (Some 2) (char_before None pre)
           [a; b] (ds ++ post)).
  - simpl. now rewrite Ha, Hb.
  - simpl. lia.
  - simpl. lia.
  - left. reflexivity.
  - cbn [char_before fold_left].
    assert (Hlast : word_at (re_word rt) (char_before (Some b) ds) = true).
    { destruct (char_before_nonempty (Some b) ds) as (c & -> & Hin).
      - intros ->. simpl in Hlen. lia.
      - simpl. apply Hdw. rewrite forallb_forall in Hd. auto. }
    apply rep_greedy; auto; try lia.
    + right. destruct post as [| c post]; [exact I |].
      rewrite Hlast in B2. simpl in B2.
      destruct (re_digit rt c) eqn:Hc; [| reflexivity].
      rewrite (Hdw c Hc) in B2. discriminate.
    + cbn [rmatch]. rewrite B2.
      assert (Hcap : (List.length (a :: b :: ds ++ post) - List.length post)%nat
                     = S (S (List.length ds))).
      { change (List.length (a :: b :: ds ++ post))
          with (S (S (List.length (ds ++ post)))).
        rewrite length_app. lia. }
      change (Some ([] ++ [firstn (List.length (a :: b :: ds ++ post)
                                   - List.length post)
                             (a :: b :: ds ++ post)])
              = Some [a :: b :: ds]).
      rewrite Hcap. cbn [firstn app].
      rewrite firstn_app, Nat.sub_diag, firstn_all. cbn [firstn].
      now rewrite app_nil_r.
Qed.

Lemma extract_nonempty rt query fn :
  _extract_flight_number rt query = Some fn -> fn <> [].
Proof.
  unfold _extract_flight_number.
  destruct (re_search _ _ _) as [caps |] eqn:E; [| discriminate].
  apply flight_regex_group in E. destruct E as (g & -> & Hg).
  intros [= <-] ->. simpl in Hg. lia.
Qed.

(** ** The flight-status client *)

Lemma status_handle_found rt w ctx query fn :
  _extract_flight_number rt query = Some fn ->
  status_handle rt w ctx query
  = try_except (status_lookup rt w ctx fn) (fun e => ret (status_except rt e)).
Proof.
  intro H. unfold status_handle. rewrite H.
  destruct fn; [| reflexivity]. now apply extract_nonempty in H.
Qed.

Lemma status_except_code rt e :
  code_of (status_except rt e)
  = Some (PStr (lit match e with
                    | RequestsTimeout => "TIMEOUT"
                    | RequestsConnectionError => "NETWORK_ERROR"
                    | _ => "SYSTEM_ERROR"
                    end)).
Proof. destruct e; reflexivity. Qed.

(** The status client never raises. *)
Lemma status_handle_total rt w ctx query t :
  exists response t' c,
    status_handle rt w ctx query t = (Returned response, t')
    /\ code_of response = Some (PStr c).
Proof.
  destruct (_extract_flight_number rt query) as [fn |] eqn:E.
  - rewrite (status_handle_found rt w ctx query fn E). unfold try_except.
    destruct (status_lookup rt w ctx fn t) as [[r | e] t'] eqn:L.
    + unfold status_lookup, bind in L.
      destruct (_fetch_flight_data w fn t) as [[fd | e] t1]; [| discriminate].
      destruct (negb (truthy fd)).
      * injection L as <- <-. do 3 eexists. split; reflexivity.
      * unfold lift in L.
        destruct (_format_flight_status rt ctx fn fd); [| discriminate].
        destruct (generate_content w _ t1) as [[x | e] t2];
          [| discriminate].
        injection L as <- <-. do 3 eexists. split; reflexivity.
    + do 3 eexists. split; [reflexivity | apply status_except_code].
  - unfold status_handle. rewrite E. do 3 eexists. split; reflexivity.
Qed.

(** C3. The status client's [handle] always returns a structured response
    with a [code], never raising; the code is 'INVALID_INPUT' when no
    flight number can be extracted from the query, 'NOT_FOUND' when the
    API's JSON object has no [data] entry or an empty [data] list,
    'TIMEOUT' when the request times out, 'NETWORK_ERROR' on a connection
    error, and 'SYSTEM_ERROR' when the lookup raises anything else. *)
Theorem status_error_codes rt w ctx query t :
  (exists response t' c,
     status_handle rt w ctx query t = (Returned response, t')
     /\ code_of response = Some (PStr c))
  /\
  (_extract_flight_number rt query = None ->
   returns_code (status_handle rt w ctx query t) "INVALID_INPUT")
  /\
  (forall fn, _extract_flight_number rt query = Some fn ->
     (forall r d,
        aviationstack w fn = Returned r ->
        raise_for_status r = Returned tt ->
        body r = Returned (PDict d) ->
        dict_get d (lit "data") = None
        \/ dict_get d (lit "data") = Some (PList []) ->
        returns_code (status_handle rt w ctx query t) "NOT_FOUND")
     /\
     (aviationstack w fn = Raised RequestsTimeout ->
      returns_code (status_handle rt w ctx query t) "TIMEOUT")
     /\
     (aviationstack w fn = Raised RequestsConnectionError ->
      returns_code (status_handle rt w ctx query t) "NETWORK_ERROR")
     /\
     (forall e t',
        status_lookup rt w ctx fn t = (Raised e, t') ->
        e <> RequestsTimeout -> e <> RequestsConnectionError ->
        returns_code (status_handle rt w ctx query t) "SYSTEM_ERROR")).
Proof.
  split; [apply status_handle_total |]. split.
  - intro E. unfold status_handle. rewrite E.
    eexists. split; reflexivity.
  - intros fn E. rewrite (status_handle_found rt w ctx query fn E).
    unfold try_except. repeat split.
    + intros r d Hr Hs Hb Hd.
      unfold status_lookup, bind, _fetch_flight_data, bind, call, lift.
      rewrite Hr, Hs, Hb. unfold py_get.
      destruct Hd as [-> | ->]; eexists; split; reflexivity.
    + intro Hr.
      unfold status_lookup, bind, _fetch_flight_data, bind, call.
      rewrite Hr. eexists. split; reflexivity.
    + intro Hr.
      unfold status_lookup, bind, _fetch_flight_data, bind, call.
      rewrite Hr. eexists. split; reflexivity.
    + intros e t' L Ht Hc. rewrite L.
      eexists. split; [reflexivity |]. cbn [fst].
      rewrite status_except_code. destruct e; congruence.
Qed.

Lemma status_error_codes_witness :
  returns_code
    (status_handle rt_ascii
       (world_of (lit "ok")
          (Returned {| status_code := 200;
                       body := Returned (PDict [(lit "data", PList [])]) |}))
       (PDict []) status_query [])
    "NOT_FOUND"
  /\
  returns_code
    (status_handle rt_ascii world_down (PDict []) analytics_query [])
    "INVALID_INPUT"
  /\
  returns_code
    (status_handle rt_ascii world_down (PDict []) status_query [])
    "NETWORK_ERROR"
  /\
  returns_code
    (status_handle rt_ascii (world_of (lit "ok") (Raised RequestsTimeout))
       (PDict []) status_query [])
    "TIMEOUT"
  /\
  returns_code
    (status_handle rt_ascii
       (world_of (lit "ok")
          (Returned {| status_code := 500; body := Raised JSONDecodeError |}))
       (PDict []) status_query [])
    "SYSTEM_ERROR".
Proof.
  repeat split.
  - refine (proj1 (proj2 (proj2 (status_error_codes rt_ascii _ _ _ _))
                     (lit "AA123") _) _ _ _ _ _ _).
    + vm_compute; reflexivity.
    + reflexivity.
    + reflexivity.
    + reflexivity.
    + right. reflexivity.
  - apply (proj1 (proj2 (status_error_codes rt_ascii _ _ _ _))).
    vm_compute; reflexivity.
  - refine (proj1 (proj2 (proj2 (proj2 (proj2
              (status_error_codes rt_ascii _ _ _ _)) (lit "AA123") _))) _).
    + vm_compute; reflexivity.
    + reflexivity.
  - refine (proj1 (proj2 (proj2 (proj2 (status_error_codes rt_ascii _ _ _ _))
                     (lit "AA123") _)) _).
    + vm_compute; reflexivity.
    + reflexivity.
  - refine (proj2 (proj2 (proj2 (proj2 (proj2
              (status_error_codes rt_ascii _ _ _ _)) (lit "AA123") _)))
              HTTPError _ _ _ _).
    + vm_compute; reflexivity.
    + vm_compute; reflexivity.
    + discriminate.
    + discriminate.
Defined.

(** ** The analytics client *)

Lemma missing_key_rejected d key :
  In key required_keys -> dict_has d key = false ->
  all_keys_in required_keys (PDict d) = Returned false.
Proof.
  unfold required_keys. cbn [all_keys_in py_in obind].
  intros [<- | [<- | [<- | [<- | []]]]] Hk;
    repeat first [ rewrite Hk | reflexivity
                 | match goal with
                   | |- context [if dict_has d ?k then _ else _] =>
                     destruct (dict_has d k) eqn:?
                   end ].
Qed.

Lemma all_keys_accepted d :
  (forall key, In key required_keys -> dict_has d key = true) ->
  all_keys_in required_keys (PDict d) = Returned true.
Proof.
  intro H. unfold required_keys in *. cbn [all_keys_in py_in obind].
  rewrite !H; simpl; auto 6.
Qed.

Lemma bq_calls_llm t prompt : bq_calls (t ++ [LLMCall prompt]) = bq_calls t.
Proof. unfold bq_calls. rewrite filter_app. simpl. apply app_nil_r. Qed.

(** The validation step never raises. *)
Lemma validate_total rt w query t :
  exists v t', _validate_and_structure_sql rt w query t = (Returned v, t').
Proof.
  unfold _validate_and_structure_sql, try_except.
  match goal with |- context [match ?m t with _ => _ end] =>
    destruct (m t) as [[v | e] t'] end; unfold ret; eauto.
Qed.

(** C2. When the model's answer to the SQL-generation prompt does not
    parse as JSON, or parses to an object that lacks one of the four
    required keys, the analytics client's [handle] returns a response whose
    code is 'VALIDATION_ERROR', and the only external call of the request
    is that prompt: the warehouse is not queried. *)
Theorem malformed_answer_is_validation_error rt w query t text :
  gemini w (sql_prompt rt query) = Returned text ->
  (exists e, json_loads rt (str_strip rt text) = Raised e)
  \/ (exists d key,
        json_loads rt (str_strip rt text) = Returned (PDict d)
        /\ In key required_keys /\ dict_has d key = false) ->
  returns_code (analytics_handle rt w query t) "VALIDATION_ERROR"
  /\ snd (analytics_handle rt w query t) = t ++ [LLMCall (sql_prompt rt query)]
  /\ bq_calls (snd (analytics_handle rt w query t)) = bq_calls t.
Proof.
  intros Hg H.
  assert (Hrun :
    returns_code (analytics_handle rt w query t) "VALIDATION_ERROR"
    /\ snd (analytics_handle rt w query t)
       = t ++ [LLMCall (sql_prompt rt query)]).
  { unfold analytics_handle, bind, _validate_and_structure_sql, try_except,
      bind, generate_content, call, lift.
    rewrite Hg.
    destruct H as [(e & ->) | (d & key & -> & Hin & Hk)].
    - split; [eexists; split; reflexivity | reflexivity].
    - rewrite (missing_key_rejected d key Hin Hk).
      split; [eexists; split; reflexivity | reflexivity]. }
  destruct Hrun as [Hc Ht]. repeat split; try assumption.
  rewrite Ht. apply bq_calls_llm.
Qed.

Lemma malformed_answer_is_validation_error_witness :
  returns_code
    (analytics_handle rt_json
       (world_of answer_incomplete_text (Raised RequestsTimeout))
       analytics_query [])
    "VALIDATION_ERROR"
  /\ snd (analytics_handle rt_json
            (world_of answer_incomplete_text (Raised RequestsTimeout))
            analytics_query [])
     = [] ++ [LLMCall (sql_prompt rt_json analytics_query)]
  /\ bq_calls (snd (analytics_handle rt_json
                      (world_of answer_incomplete_text (Raised RequestsTimeout))
                      analytics_query [])) = bq_calls [].
Proof.
  apply (malformed_answer_is_validation_error rt_json
           (world_of answer_incomplete_text (Raised RequestsTimeout))
           analytics_query [] answer_incomplete_text).
  - reflexivity.
  - right. exists [ (lit "sql", PStr (lit "SELECT 1"));
                    (lit "query_type", PStr (lit "general_analytics"));
                    (lit "extracted_values", PDict []) ], (lit "parameters").
    split; [vm_compute; reflexivity |].
    split; [right; left; reflexivity | vm_compute; reflexivity].
Defined.

Lemma dict_has_get d k :
  dict_has d k = true -> exists v, dict_get d k = Some v.
Proof. unfold dict_has. destruct (dict_get d k); [eauto | discriminate]. Qed.

Ltac split_outcome :=
  match goal with
  | |- context [if ?b then _ else _] => destruct b
  | |- context [match ?o with Returned _ => _ | Raised _ => _ end] =>
    destruct o
  end.

(** C9. The analytics client takes the VALIDATION_ERROR branch exactly
    when the validated result has a key named 'error'.  So a model answer
    that is valid JSON and has all four required keys, but an 'error' key
    as well, gives a 'VALIDATION_ERROR' response whose message is the value
    under that key, and the SQL is never run; the same answer without the
    'error' key never gives that code. *)
Theorem error_key_decides_validation_error rt w query t text d :
  gemini w (sql_prompt rt query) = Returned text ->
  json_loads rt (str_strip rt text) = Returned (PDict d) ->
  (forall key, In key required_keys -> dict_has d key = true) ->
  (forall message,
     dict_get d (lit "error") = Some message ->
     returns_code (analytics_handle rt w query t) "VALIDATION_ERROR"
     /\ (exists response,
           fst (analytics_handle rt w query t) = Returned response
           /\ dict_get response (lit "message") = Some message)
     /\ snd (analytics_handle rt w query t)
        = t ++ [LLMCall (sql_prompt rt query)]
     /\ bq_calls (snd (analytics_handle rt w query t)) = bq_calls t)
  /\
  (dict_get d (lit "error") = None ->
   ~ returns_code (analytics_handle rt w query t) "VALIDATION_ERROR").
Proof.
  intros Hg Hj Hall.
  unfold analytics_handle, bind, _validate_and_structure_sql, try_except,
    bind, generate_content, call, lift.
  rewrite Hg, Hj, (all_keys_accepted d Hall).
  cbn [negb ret py_in py_getitem]. unfold dict_has.
  split.
  - intros message ->.
    split; [eexists; split; reflexivity |].
    split; [eexists; split; reflexivity |].
    split; [reflexivity | apply bq_calls_llm].
  - intros ->.
    destruct (dict_has_get d (lit "extracted_values")) as (ev & ->);
      [apply Hall; simpl; auto 6 |].
    destruct (dict_has_get d (lit "sql")) as (sql & ->);
      [apply Hall; simpl; auto 6 |].
    destruct (dict_has_get d (lit "parameters")) as (ps & ->);
      [apply Hall; simpl; auto 6 |].
    destruct (dict_has_get d (lit "query_type")) as (qt & ->);
      [apply Hall; simpl; auto 6 |].
    intros (response & Hr & Hc). revert Hr Hc.
    repeat (cbv beta iota delta [ret]; split_outcome);
      cbv beta iota delta [ret fst];
      intros [= <-]; try discriminate;
      intro Hc; vm_compute in Hc; discriminate.
Qed.

Lemma error_key_decides_validation_error_witness :
  returns_code
    (analytics_handle rt_json
       (world_of answer_with_error_text (Raised RequestsTimeout))
       analytics_query [])
    "VALIDATION_ERROR"
  /\ (exists response,
        fst (analytics_handle rt_json
               (world_of answer_with_error_text (Raised RequestsTimeout))
               analytics_query []) = Returned response
        /\ dict_get response (lit "message") = Some (PStr (lit "none")))
  /\ snd (analytics_handle rt_json
            (world_of answer_with_error_text (Raised RequestsTimeout))
            analytics_query [])
     = [] ++ [LLMCall (sql_prompt rt_json analytics_query)]
  /\ bq_calls (snd (analytics_handle rt_json
                      (world_of answer_with_error_text (Raised RequestsTimeout))
                      analytics_query [])) = bq_calls [].
Proof.
  refine (proj1 (error_key_decides_validation_error rt_json
                   (world_of answer_with_error_text (Raised RequestsTimeout))
                   analytics_query [] answer_with_error_text
                   [ (lit "sql", PStr (lit "SELECT 1"));
                     (lit "parameters", PList []);
                     (lit "query_type", PStr (lit "general_analytics"));
                     (lit "extracted_values", PDict []);
                     (lit "error", PStr (lit "none")) ] _ _ _)
                (PStr (lit "none")) _).
  - reflexivity.
  - vm_compute; reflexivity.
  - intros key [<- | [<- | [<- | [<- | []]]]]; vm_compute; reflexivity.
  - vm_compute; reflexivity.
Defined.

(** ** The web handler *)

Lemma cp_eqb_eq a b : cp_eqb a b = true <-> a = b.
Proof. apply N.eqb_eq. Qed.

Lemma str_eqb_eq a b : str_eqb a b = true <-> a = b.
Proof.
  revert b. induction a as [| x a IH]; intros [| y b]; simpl;
    try (split; [discriminate | discriminate]); try tauto.
  rewrite andb_true_iff, cp_eqb_eq, IH. split.
  - intros [-> ->]. reflexivity.
  - intros [= -> ->]. auto.
Qed.

Lemma dict_get_set_same d k v : dict_get (dict_set d k v) k = Some v.
Proof.
  induction d as [| [k' v'] d IH]; simpl.
  - now rewrite (proj2 (str_eqb_eq k k) eq_refl).
  - destruct (str_eqb k' k) eqn:E; simpl; now rewrite E.
Qed.

Lemma dict_get_set_other d k v k2 :
  str_eqb k k2 = false -> dict_get (dict_set d k v) k2 = dict_get d k2.
Proof.
  intro Hk. induction d as [| [k' v'] d IH]; simpl.
  - now rewrite Hk.
  - destruct (str_eqb k' k) eqn:E; simpl.
    + apply str_eqb_eq in E. subst k'. now rewrite Hk.
    + now rewrite IH.
Qed.

Lemma track_intent_keeps rt q m k :
  str_eqb (lit "last_intent") k = false ->
  dict_get (track_intent rt q m) k = dict_get m k.
Proof.
  intro Hk. unfold track_intent.
  destruct (_ || _); [now apply dict_get_set_other | reflexivity].
Qed.

Lemma tidy_extends {A} (m : M A) t :
  tidy m -> exists l, snd (m t) = t ++ l.
Proof. intro H. rewrite (H t). cbn [snd]. eauto. Qed.

Lemma tidy_dispatch rt w ctx b q : tidy (dispatch rt w ctx b q).
Proof.
  unfold dispatch. destruct b.
  - apply tidy_bind; [apply tidy_lift | intro; apply tidy_status].
  - apply tidy_analytics.
Qed.

(** C4. When the query has no 'from XXX to YYY' route and the session
    memory holds an origin and a destination, the handler appends
    ' from <origin> to <dest>' to the query, and it is this longer query
    that the router is given; when the query has a route, the query is
    left as it is and the two matched codes, upper-cased, are stored under
    the memory's [origin] and [dest] keys. *)
Theorem route_carried_forward rt s r :
  (forall origin dest,
     route_match rt (req_query r) = None ->
     dict_get (default (memory s) []) (lit "origin") = Some origin ->
     dict_get (default (memory s) []) (lit "dest") = Some dest ->
     fst (chat_prepare rt s r)
     = req_query r ++ lit " from " ++ py_str rt origin ++ lit " to "
         ++ py_str rt dest)
  /\
  (forall g1 g2,
     route_match rt (req_query r) = Some (g1, g2) ->
     fst (chat_prepare rt s r) = req_query r
     /\ exists memory',
          memory (snd (chat_prepare rt s r)) = Some memory'
          /\ dict_get memory' (lit "origin") = Some (PStr (str_upper rt g1))
          /\ dict_get memory' (lit "dest") = Some (PStr (str_upper rt g2)))
  /\
  (forall w t,
     router_regex_hit rt (fst (chat_prepare rt s r)) = false ->
     exists rest,
       snd (chat rt w s r t)
       = t ++ LLMCall (classify_prompt (fst (chat_prepare rt s r))) :: rest).
Proof.
  repeat split.
  - intros origin dest Hm Ho Hd. unfold chat_prepare, carry_route.
    rewrite Hm, Ho, Hd. reflexivity.
  - unfold chat_prepare, carry_route. rewrite H. reflexivity.
  - unfold chat_prepare, carry_route. rewrite H. cbn [snd memory].
    eexists. split; [reflexivity |]. split.
    + rewrite track_intent_keeps by reflexivity.
      rewrite dict_get_set_other by reflexivity.
      apply dict_get_set_same.
    + rewrite track_intent_keeps by reflexivity.
      apply dict_get_set_same.
  - intros w t Hhit. unfold chat.
    destruct (chat_prepare rt s r) as [q' s'] eqn:E. cbn [fst] in *.
    unfold bind at 1.
    pose proof (router_miss rt w q' t Hhit) as Hr.
    destruct (router_handle rt w q' t) as [[a | e] t1]; cbn [snd] in Hr;
      subst t1.
    + match goal with |- context [snd (?m (t ++ [?ev]))] =>
        destruct (tidy_extends m (t ++ [ev])) as (l & ->)
      end.
      * apply tidy_bind; [apply tidy_lift | intro].
        apply tidy_bind; [apply tidy_dispatch | intro; apply tidy_ret].
      * exists l. now rewrite <- app_assoc.
    + exists []. reflexivity.
Qed.

Lemma route_carried_forward_witness :
  fst (chat_prepare rt_ascii session_with_route (request_of "show me delays"))
  = lit "show me delays" ++ lit " from " ++ py_str rt_ascii (PStr (lit "JFK"))
      ++ lit " to " ++ py_str rt_ascii (PStr (lit "LAX"))
  /\
  (fst (chat_prepare rt_ascii empty_session
          (request_of "on time airlines from jfk to lax"))
   = lit "on time airlines from jfk to lax"
   /\ exists memory',
        memory (snd (chat_prepare rt_ascii empty_session
                       (request_of "on time airlines from jfk to lax")))
        = Some memory'
        /\ dict_get memory' (lit "origin")
           = Some (PStr (str_upper rt_ascii (lit "jfk")))
        /\ dict_get memory' (lit "dest")
           = Some (PStr (str_upper rt_ascii (lit "lax")))).
Proof.
  split.
  - apply (proj1 (route_carried_forward rt_ascii session_with_route
                    (request_of "show me delays"))).
    + vm_compute; reflexivity.
    + reflexivity.
    + reflexivity.
  - apply (proj1 (proj2 (route_carried_forward rt_ascii empty_session
                    (request_of "on time airlines from jfk to lax")))).
    vm_compute; reflexivity.
Defined.

(** C5. When the regex finds no flight number in the query handed to the
    router and the model's label, trimmed and lower-cased, is anything
    other than 'flight_status' (the label 'flight_analytics' or any third
    text), the handler's outcome is that of the analytics client run on
    the same query right after the classification call: the label is
    neither checked nor rejected on the way. *)
Theorem other_label_goes_to_analytics rt w s r t text :
  router_regex_hit rt (fst (chat_prepare rt s r)) = false ->
  gemini w (classify_prompt (fst (chat_prepare rt s r))) = Returned text ->
  str_lower rt (str_strip rt text) <> lit "flight_status" ->
  chat rt w s r t
  = (response <- analytics_handle rt w (fst (chat_prepare rt s r)) ;;
     ret (snd (chat_prepare rt s r), add_subscription r response))
      (t ++ [LLMCall (classify_prompt (fst (chat_prepare rt s r)))]).
Proof.
  intros Hhit Hg Hlabel. unfold chat.
  destruct (chat_prepare rt s r) as [q' s'] eqn:E. cbn [fst snd] in *.
  unfold bind at 1. rewrite (router_miss_returned rt w q' t text Hhit Hg).
  unfold bind at 1, lift, routed_to_status.
  replace (dict_get _ (lit "agent"))
    with (Some (PStr (str_lower rt (str_strip rt text)))) by reflexivity.
  destruct (str_eqb _ _) eqn:Heq.
  - apply str_eqb_eq in Heq. contradiction.
  - reflexivity.
Qed.

Lemma other_label_goes_to_analytics_witness :
  chat rt_ascii (world_of (lit " Weather
") (Raised RequestsTimeout))
       empty_session (request_of "is it raining") []
  = (response <- analytics_handle rt_ascii
                   (world_of (lit " Weather
") (Raised RequestsTimeout))
                   (fst (chat_prepare rt_ascii empty_session
                           (request_of "is it raining"))) ;;
     ret (snd (chat_prepare rt_ascii empty_session
                 (request_of "is it raining")),
          add_subscription (request_of "is it raining") response))
      ([] ++ [LLMCall (classify_prompt
                         (fst (chat_prepare rt_ascii empty_session
                                 (request_of "is it raining"))))]).
Proof.
  apply (other_label_goes_to_analytics rt_ascii
           (world_of (lit " Weather
") (Raised RequestsTimeout))
           empty_session (request_of "is it raining") [] (lit " Weather
")).
  - vm_compute; reflexivity.
  - reflexivity.
  - vm_compute. discriminate.
Defined.

(** ** The status report *)

Lemma obind_returned {A B} (o : outcome A) (k : A -> outcome B) b :
  obind o k = Returned b -> exists a, o = Returned a /\ k a = Returned b.
Proof. destruct o; simpl; [eauto | discriminate]. Qed.

Ltac obind_step H x Hx :=
  apply obind_returned in H; destruct H as (x & Hx & H); cbv beta zeta in H.

(** The shape of the list that [_format_flight_status] joins: six lines
    with fixed labels, the delay line, and at most one personalisation
    entry, which begins with a line break. *)
Lemma report_lines_shape rt ctx fn flight lines :
  report_lines rt ctx fn flight = Returned lines ->
  exists status0 status dep delay l1 l3 l4 l5 l6 extra,
    py_get flight (lit "flight_status") (PStr (lit "Unknown"))
    = Returned status0
    /\ py_capitalize rt status0 = Returned status
    /\ py_get flight (lit "departure") (PDict []) = Returned dep
    /\ py_get dep (lit "delay") PNone = Returned delay
    /\ lines
       = (lit "Flight Status Report for " ++ l1)
         :: (lit "Status: " ++ status)
         :: (lit "Route: " ++ l3)
         :: (lit "Scheduled Departure: " ++ l4)
         :: (lit "Scheduled Arrival: " ++ l5)
         :: (lit "Terminal: " ++ l6)
         :: (if truthy delay
             then lit "Departure Delay: " ++ py_str rt delay ++ lit " min"
             else lit "On time")
         :: extra
    /\ (extra = [] \/ exists p, extra = [nl ++ p]).
Proof.
  intro H. unfold report_lines in H.
  obind_step H airline0 Hairline0. obind_step H airline Hairline.
  obind_step H status0 Hstatus0. obind_step H status Hstatus.
  obind_step H dep Hdep. obind_step H arr Harr.
  obind_step H dep_airport H1. obind_step H dep_city0 H2.
  obind_step H dep_code H3. obind_step H arr_airport H4.
  obind_step H arr_city0 H5. obind_step H arr_code H6.
  obind_step H dep_scheduled H7. obind_step H dep_actual H8.
  obind_step H arr_scheduled H9. obind_step H arr_estimated H10.
  obind_step H gate0 H11. obind_step H terminal0 H12.
  obind_step H delay Hdelay.
  obind_step H user_airline H13. obind_step H user_airport H14.
  obind_step H hit_airline H15. obind_step H hit_airport H16.
  injection H as <-.
  exists status0, status, dep, delay.
  do 5 eexists.
  exists (if hit_airport
          then [(if hit_airline
                 then nl ++ lit "[Personalized] This is your preferred airline!"
                 else [])
                ++ nl
                ++ lit "[Personalized] This route includes your preferred airport!"]
          else if hit_airline
               then [nl ++ lit "[Personalized] This is your preferred airline!"]
               else []).
  repeat (split; [assumption |]). split.
  - destruct hit_airport, hit_airline; reflexivity.
  - destruct hit_airport, hit_airline;
      [ right; eexists; rewrite <- app_assoc; reflexivity
      | right; eexists; reflexivity
      | right; eexists; reflexivity
      | left; reflexivity ].
Qed.

Lemma starts_with_app p s : starts_with p (p ++ s) = true.
Proof.
  induction p as [| x p IH]; simpl; [reflexivity |].
  now rewrite (proj2 (cp_eqb_eq x x) eq_refl).
Qed.

Lemma starts_with_app_l n a b :
  starts_with n a = true -> starts_with n (a ++ b) = true.
Proof.
  revert a. induction n as [| x n IH]; intros [| y a]; simpl; auto;
    try discriminate.
  rewrite !andb_true_iff. intros [-> H]. auto.
Qed.

Lemma str_contains_app_l n a b :
  str_contains n a = true -> str_contains n (a ++ b) = true.
Proof.
  induction a as [| y a IH]; simpl.
  - rewrite orb_false_r. intro H. destruct n; [| discriminate].
    destruct b; reflexivity.
  - rewrite !orb_true_iff. intros [H | H].
    + left. now apply (starts_with_app_l n (y :: a) b).
    + right. auto.
Qed.

Lemma str_contains_app_r n a b :
  str_contains n b = true -> str_contains n (a ++ b) = true.
Proof.
  intro H. induction a as [| y a IH]; simpl; [exact H |].
  rewrite IH. apply orb_true_r.
Qed.

Lemma str_contains_self n s : str_contains n (n ++ s) = true.
Proof.
  destruct n as [| x n]; [destruct s; reflexivity |].
  change (starts_with (x :: n) ((x :: n) ++ s)
          || str_contains (x :: n) (n ++ s) = true).
  now rewrite starts_with_app.
Qed.

(** A text found in one of the joined parts is found in the joined text. *)
Lemma str_contains_join n sep parts l :
  In l parts -> str_contains n l = true ->
  str_contains n (str_join sep parts) = true.
Proof.
  intros Hin Hn. induction parts as [| p parts IH]; [contradiction |].
  destruct parts as [| p' parts].
  - destruct Hin as [-> | []]. exact Hn.
  - change (str_contains n (p ++ sep ++ str_join sep (p' :: parts)) = true).
    destruct Hin as [-> | Hin].
    + now apply str_contains_app_l.
    + apply str_contains_app_r, str_contains_app_r. auto.
Qed.

(** C7. For the query "What's the status of AA123?" the router answers
    'flight_status' without consulting the model, and for a flight record
    whose [flight_status] is the string 'active' every report that
    [_format_flight_status] produces has 'Status: Active' as its second
    line, so the report contains 'Status: Active'. *)
Theorem active_flight_report rt w ctx fn d report t :
  dict_get d (lit "flight_status") = Some (PStr (lit "active")) ->
  _format_flight_status rt ctx fn (PDict d) = Returned report ->
  router_handle rt w (lit "What's the status of AA123?") t
  = (Returned [(lit "agent", PStr (lit "flight_status"))], t)
  /\ (exists lines,
        report_lines rt ctx fn (PDict d) = Returned lines
        /\ report = str_join nl lines
        /\ nth_error lines 1 = Some (lit "Status: Active"))
  /\ str_contains (lit "Status: Active") report = true.
Proof.
  intros Hs Hr. split.
  { apply router_hit. vm_compute. reflexivity. }
  unfold _format_flight_status in Hr.
  apply obind_returned in Hr. destruct Hr as (lines & Hl & [= <-]).
  destruct (report_lines_shape rt ctx fn (PDict d) lines Hl)
    as (status0 & status & dep & delay & l1 & l3 & l4 & l5 & l6 & extra
        & H0 & Hc & _ & _ & -> & _).
  unfold py_get in H0. rewrite Hs in H0. injection H0 as <-.
  injection Hc as <-.
  assert (Hcap : str_capitalize rt (lit "active") = lit "Active")
    by (vm_compute; reflexivity).
  rewrite Hcap in *.
  split.
  - eexists. split; [exact Hl |]. split; reflexivity.
  - apply str_contains_join with (l := lit "Status: " ++ lit "Active").
    + right. left. reflexivity.
    + vm_compute. reflexivity.
Qed.

Lemma active_flight_report_witness :
  exists report,
    _format_flight_status rt_ascii (PDict []) (lit "AA123")
      (PDict (flight_record (Some (PInt 0)))) = Returned report
    /\ router_handle rt_ascii world_down (lit "What's the status of AA123?") []
       = (Returned [(lit "agent", PStr (lit "flight_status"))], [])
    /\ (exists lines,
          report_lines rt_ascii (PDict []) (lit "AA123")
            (PDict (flight_record (Some (PInt 0)))) = Returned lines
          /\ report = str_join nl lines
          /\ nth_error lines 1 = Some (lit "Status: Active"))
    /\ str_contains (lit "Status: Active") report = true.
Proof.
  eexists. split; [vm_compute; reflexivity |].
  apply (active_flight_report rt_ascii world_down (PDict []) (lit "AA123")
           (flight_record (Some (PInt 0)))).
  - reflexivity.
  - vm_compute; reflexivity.
Defined.

(** C10. For a flight record whose departure has no [delay] entry, or
    has [delay] equal to None or to 0, the delay line of the report is
    'On time' (the report contains it) and no line begins with
    'Departure Delay:'; a line that begins with 'Departure Delay:' is in
    the report only when the delay is a truthy value, and then it is
    'Departure Delay: <delay> min'.  A recorded delay of zero minutes thus
    gives the same delay line as no record at all. *)
Theorem delay_line_on_time rt ctx fn flight dd lines :
  py_get flight (lit "departure") (PDict []) = Returned (PDict dd) ->
  report_lines rt ctx fn flight = Returned lines ->
  (dict_get dd (lit "delay") = None
   \/ dict_get dd (lit "delay") = Some PNone
   \/ dict_get dd (lit "delay") = Some (PInt 0) ->
   nth_error lines 6 = Some (lit "On time")
   /\ str_contains (lit "On time") (str_join nl lines) = true
   /\ forall l, In l lines -> starts_with (lit "Departure Delay:") l = false)
  /\
  (forall l,
     In l lines -> starts_with (lit "Departure Delay:") l = true ->
     exists delay,
       dict_get dd (lit "delay") = Some delay
       /\ truthy delay = true
       /\ l = lit "Departure Delay: " ++ py_str rt delay ++ lit " min"
       /\ nth_error lines 6 = Some l).
Proof.
  intros Hdep Hl.
  destruct (report_lines_shape rt ctx fn flight lines Hl)
    as (status0 & status & dep & delay & l1 & l3 & l4 & l5 & l6 & extra
        & _ & _ & Hdep' & Hdelay & -> & Hextra).
  rewrite Hdep in Hdep'. injection Hdep' as <-.
  unfold py_get in Hdelay. injection Hdelay as Hdelay.
  assert (Hother : forall l,
            In l [lit "Flight Status Report for " ++ l1;
                  lit "Status: " ++ status; lit "Route: " ++ l3;
                  lit "Scheduled Departure: " ++ l4;
                  lit "Scheduled Arrival: " ++ l5; lit "Terminal: " ++ l6]
            \/ In l extra ->
            starts_with (lit "Departure Delay:") l = false).
  { intros l [Hin | Hin].
    - repeat (destruct Hin as [<- | Hin]; [reflexivity |]). destruct Hin.
    - destruct Hextra as [-> | (p & ->)]; [destruct Hin |].
      destruct Hin as [<- | []]. reflexivity. }
  split.
  - intro Hcases.
    assert (Hfalsy : truthy delay = false).
    { destruct Hcases as [H | [H | H]]; rewrite H in Hdelay; subst delay;
        reflexivity. }
    rewrite Hfalsy. split; [reflexivity |]. split.
    + apply str_contains_join with (l := lit "On time").
      * do 6 right. left. reflexivity.
      * reflexivity.
    + intros l Hin.
      repeat (destruct Hin as [<- | Hin];
              [first [ apply Hother; left; simpl; tauto | reflexivity ] |]).
      apply Hother. right. exact Hin.
  - intros l Hin Hstart.
    assert (Hl7 : l = (if truthy delay
                       then lit "Departure Delay: " ++ py_str rt delay
                              ++ lit " min"
                       else lit "On time")).
    { do 6 (destruct Hin as [<- | Hin];
            [rewrite Hother in Hstart by (left; simpl; tauto);
             discriminate |]).
      destruct Hin as [<- | Hin]; [reflexivity |].
      rewrite Hother in Hstart by (right; exact Hin). discriminate. }
    destruct (truthy delay) eqn:Ht.
    + exists delay.
      destruct (dict_get dd (lit "delay")) as [v |];
        [subst v | subst delay; discriminate].
      subst l. repeat split; first [exact Ht | reflexivity].
    + subst l. discriminate.
Qed.

Lemma delay_line_on_time_witness :
  exists lines,
    report_lines rt_ascii (PDict []) (lit "AA123")
      (PDict (flight_record (Some (PInt 0)))) = Returned lines
    /\ nth_error lines 6 = Some (lit "On time")
    /\ str_contains (lit "On time") (str_join nl lines) = true
    /\ forall l, In l lines -> starts_with (lit "Departure Delay:") l = false.
Proof.
  eexists. split; [vm_compute; reflexivity |].
  refine (proj1 (delay_line_on_time rt_ascii (PDict []) (lit "AA123")
                   (PDict (flight_record (Some (PInt 0))))
                   [ (lit "airport", PStr (lit "John F Kennedy International"));
                     (lit "iata", PStr (lit "JFK"));
                     (lit "scheduled", PStr (lit "2024-05-01T10:00:00+00:00"));
                     (lit "delay", PInt 0) ] _ _ _) _).
  - reflexivity.
  - vm_compute; reflexivity.
  - right. right. reflexivity.
Defined.

(** ** Repeating a request *)

Lemma same_bind {A B} (m1 m2 : M A) (k1 k2 : A -> M B) :
  same m1 m2 -> (forall a, same (k1 a) (k2 a)) -> same (bind m1 k1) (bind m2 k2).
Proof.
  intros Hm Hk t. unfold bind. rewrite (Hm t).
  destruct (m2 t) as [[a | e] t']; [apply Hk | reflexivity].
Qed.

Lemma same_try {A} (m1 m2 : M A) (h1 h2 : exn -> M A) :
  same m1 m2 -> (forall e, same (h1 e) (h2 e)) ->
  same (try_except m1 h1) (try_except m2 h2).
Proof.
  intros Hm Hh t. unfold try_except. rewrite (Hm t).
  destruct (m2 t) as [[a | e] t']; [reflexivity | apply Hh].
Qed.

Lemma same_refl {A} (m : M A) : same m m.
Proof. intro t. reflexivity. Qed.

Lemma same_generate_content w1 w2 p :
  same_responses w1 w2 -> same (generate_content w1 p) (generate_content w2 p).
Proof.
  intros [Hg _] t. unfold generate_content, call. now rewrite Hg.
Qed.

Lemma same_router rt w1 w2 q :
  same_responses w1 w2 -> same (router_handle rt w1 q) (router_handle rt w2 q).
Proof.
  intro H. unfold router_handle. destruct (router_regex_hit rt q).
  - apply same_refl.
  - apply same_bind; [now apply same_generate_content | intro; apply same_refl].
Qed.

Lemma same_fetch w1 w2 fn :
  same_responses w1 w2 ->
  same (_fetch_flight_data w1 fn) (_fetch_flight_data w2 fn).
Proof.
  intros [_ Ha] t. unfold _fetch_flight_data, bind at 1, call.
  rewrite Ha. reflexivity.
Qed.

Lemma same_status rt w1 w2 ctx q :
  same_responses w1 w2 ->
  same (status_handle rt w1 ctx q) (status_handle rt w2 ctx q).
Proof.
  intro H. unfold status_handle.
  destruct (_extract_flight_number rt q) as [[| c fn] |];
    try apply same_refl.
  apply same_try; [| intro; apply same_refl].
  unfold status_lookup.
  apply same_bind; [now apply same_fetch | intro fd].
  destruct (negb (truthy fd)); [apply same_refl |].
  apply same_bind; [apply same_refl | intro raw].
  apply same_bind; [now apply same_generate_content | intro; apply same_refl].
Qed.

Lemma tidy_same_fst {A} (m1 m2 : M A) t1 t2 :
  tidy m1 -> tidy m2 -> same m1 m2 -> fst (m1 t1) = fst (m2 t2).
Proof.
  intros H1 H2 Hs. rewrite (H1 t1), (H2 t2), (Hs []). reflexivity.
Qed.

(** C8. The route and the status client's outcome are functions of the
    query and of the external responses alone.  A second attempt at the
    same query, made in a world that answers as the first did and from
    whatever trace the first attempt left, gives the same route and the
    same response; so a failure that recurs (the API again reporting no
    records, say) is reported under the same code. *)
Theorem repeated_query_same_outcome rt w1 w2 ctx query t1 t2 :
  same_responses w1 w2 ->
  fst (router_handle rt w1 query t1) = fst (router_handle rt w2 query t2)
  /\ fst (status_handle rt w1 ctx query t1)
     = fst (status_handle rt w2 ctx query t2)
  /\ (forall c,
        returns_code (status_handle rt w1 ctx query t1) c ->
        returns_code (status_handle rt w2 ctx query t2) c)
  /\ fst (status_handle rt w1 ctx query
            (snd (status_handle rt w1 ctx query t1)))
     = fst (status_handle rt w1 ctx query t1).
Proof.
  intro H.
  assert (Hs : fst (status_handle rt w1 ctx query t1)
               = fst (status_handle rt w2 ctx query t2)).
  { apply tidy_same_fst; auto using tidy_status, same_status. }
  split; [| split; [exact Hs | split]].
  - apply tidy_same_fst; auto using tidy_router, same_router.
  - intros c (response & Hr & Hc). exists response.
    rewrite <- Hs. auto.
  - apply tidy_same_fst; auto using tidy_status, same_refl.
Qed.

Lemma repeated_query_same_outcome_witness :
  same_responses world_no_records world_no_records
  /\ fst (status_handle rt_ascii world_no_records (PDict []) status_query [])
     = fst (status_handle rt_ascii world_no_records (PDict []) status_query
              [HTTPGet (lit "AA123")])
  /\ (returns_code
        (status_handle rt_ascii world_no_records (PDict []) status_query [])
        "NOT_FOUND" ->
      returns_code
        (status_handle rt_ascii world_no_records (PDict []) status_query
           [HTTPGet (lit "AA123")])
        "NOT_FOUND").
Proof.
  assert (H : same_responses world_no_records world_no_records)
    by (split; intro; reflexivity).
  split; [exact H |].
  pose proof (repeated_query_same_outcome rt_ascii world_no_records
                world_no_records (PDict []) status_query []
                [HTTPGet (lit "AA123")] H) as (_ & Hs & Hc & _).
  split; [exact Hs | apply Hc].
Defined.

(** ** What reaches the web layer *)

Lemma update_field_dict key slot ev memory :
  exists memory', update_field key slot (PDict ev) memory = Returned memory'.
Proof.
  unfold update_field, py_in, py_getitem, obind, dict_has.
  destruct (dict_get ev key); eauto.
Qed.

Lemma update_memory_dict memory ev :
  exists memory', _update_memory memory (PDict ev) = Returned memory'.
Proof.
  unfold _update_memory.
  destruct (update_field_dict (lit "origin") (lit "last_origin") ev memory)
    as (m1 & ->). cbn [obind].
  destruct (update_field_dict (lit "destination") (lit "last_destination")
              ev m1) as (m2 & ->). cbn [obind].
  destruct (update_field_dict (lit "year") (lit "last_year") ev m2)
    as (m3 & ->). cbn [obind].
  apply update_field_dict.
Qed.

(** The claim C6 as stated fails: an exception of the router's
    classification call leaves the router and the /chat handler, and an
    [extracted_values] that is not an object makes the analytics client's
    memory update raise outside its [try]. *)
Lemma exceptions_escape :
  router_handle rt_ascii world_down analytics_query []
  = (Raised (LibraryError (lit "ServiceUnavailable")),
     [LLMCall (classify_prompt analytics_query)])
  /\ fst (chat rt_ascii world_down empty_session
            (request_of "which airlines are most punctual") [])
     = Raised (LibraryError (lit "ServiceUnavailable"))
  /\ analytics_handle rt_json
       (world_of answer_bad_values_text (Raised RequestsTimeout))
       analytics_query []
     = (Raised TypeError, [LLMCall (sql_prompt rt_json analytics_query)])
  /\ ~ (forall rt w s r, never_raises (chat rt w s r)).
Proof.
  assert (H : fst (chat rt_ascii world_down empty_session
                     (request_of "which airlines are most punctual") [])
              = Raised (LibraryError (lit "ServiceUnavailable")))
    by (vm_compute; reflexivity).
  repeat split; try (vm_compute; reflexivity).
  intro Hall.
  destruct (Hall rt_ascii world_down empty_session
              (request_of "which airlines are most punctual") [])
    as (a & t' & E).
  rewrite E in H. discriminate.
Qed.

(** C6, amended. The status client returns a structured response from
    every request and never raises.  The analytics client returns a
    structured response whenever the validated model answer is an object
    that has an 'error' key or whose [extracted_values] is an object.  The
    router returns a routing result when the regex matches or when the
    classification call returns; an exception of the classification call
    is not caught and leaves the /chat handler. *)
Theorem structured_results rt w :
  (forall ctx query t,
     exists response t' c,
       status_handle rt w ctx query t = (Returned response, t')
       /\ code_of response = Some (PStr c))
  /\
  (forall query t d t1,
     _validate_and_structure_sql rt w query t = (Returned (PDict d), t1) ->
     dict_has d (lit "error") = true
     \/ (exists ev, dict_get d (lit "extracted_values") = Some (PDict ev)) ->
     exists response t' c,
       analytics_handle rt w query t = (Returned response, t')
       /\ code_of response = Some (PStr c))
  /\
  (forall query t,
     router_regex_hit rt query = true
     \/ (exists text, gemini w (classify_prompt query) = Returned text) ->
     exists a t',
       router_handle rt w query t
       = (Returned [(lit "agent", PStr a)], t'))
  /\
  (forall s r t e,
     router_regex_hit rt (fst (chat_prepare rt s r)) = false ->
     gemini w (classify_prompt (fst (chat_prepare rt s r))) = Raised e ->
     chat rt w s r t
     = (Raised e, t ++ [LLMCall (classify_prompt (fst (chat_prepare rt s r)))])).
Proof.
  split; [intros; apply status_handle_total |]. split; [| split].
  - intros query t d t1 Hv Hcase.
    unfold analytics_handle. unfold bind at 1. rewrite Hv.
    unfold bind at 1, lift, py_in.
    destruct (dict_has d (lit "error")) eqn:Herr.
    + destruct (dict_has_get d (lit "error") Herr) as (msg & Hmsg).
      unfold bind, lift, py_getitem. rewrite Hmsg.
      do 3 eexists. split; reflexivity.
    + destruct Hcase as [? | (ev & Hev)]; [discriminate |].
      unfold bind at 1, lift, py_getitem at 1. rewrite Hev.
      destruct (update_memory_dict initial_memory ev) as (m' & Hm).
      unfold bind at 1. rewrite Hm.
      unfold try_except, bind, lift, generate_content, call.
      repeat (cbv beta iota delta [ret]; split_outcome);
        cbv beta iota delta [ret]; do 3 eexists; split; reflexivity.
  - intros query t [Hhit | (text & Hg)].
    + do 2 eexists. now apply router_hit.
    + destruct (router_regex_hit rt query) eqn:Hhit.
      * do 2 eexists. now apply router_hit.
      * do 2 eexists. eapply router_miss_returned; eassumption.
  - intros s r t e Hhit Hg. unfold chat.
    destruct (chat_prepare rt s r) as [q' s']. cbn [fst] in *.
    unfold bind at 1, router_handle. rewrite Hhit.
    unfold bind, generate_content, call. rewrite Hg. reflexivity.
Qed.

Lemma structured_results_witness :
  (exists a t',
     router_handle rt_ascii (world_of (lit "flight_analytics")
                               (Raised RequestsTimeout))
       analytics_query []
     = (Returned [(lit "agent", PStr a)], t'))
  /\
  chat rt_ascii world_down empty_session
    (request_of "which airlines are most punctual") []
  = (Raised (LibraryError (lit "ServiceUnavailable")),
     [] ++ [LLMCall (classify_prompt
                       (fst (chat_prepare rt_ascii empty_session
                               (request_of "which airlines are most punctual"))))]).
Proof.
  split.
  - apply (proj1 (proj2 (proj2 (structured_results rt_ascii
             (world_of (lit "flight_analytics") (Raised RequestsTimeout)))))).
    right. exists (lit "flight_analytics"). reflexivity.
  - apply (proj2 (proj2 (proj2 (structured_results rt_ascii world_down)))).
    + vm_compute; reflexivity.
    + reflexivity.
Defined.

(** * Further properties *)

(** ** The flight-number pattern *)

Lemma flight_search_shape rt letter q caps :
  re_search rt (flight_number_regex rt letter) q = Some caps ->
  exists pre a b ds post,
    q = pre ++ a :: b :: ds ++ post
    /\ caps = [a :: b :: ds]
    /\ letter a = true /\ letter b = true
    /\ (1 <= List.length ds <= 4)%nat
    /\ forallb (re_digit rt) ds = true
    /\ xorb (word_at (re_word rt) (char_before None pre)) (re_word rt a) = true
    /\ xorb (word_at (re_word rt) (char_before (Some b) ds))
            (word_at (re_word rt) (hd_error post)) = true.
Proof.
  unfold re_search. intro E.
  apply search_from_inv in E. destruct E as (pre & s' & -> & H).
  apply flight_regex_match in H.
  destruct H as (a & b & ds & post & -> & -> & Ha & Hb & Hds & Hd & B1 & B2).
  exists pre, a, b, ds, post. repeat split; auto; lia.
Qed.

Lemma flight_shape_search rt letter pre a b ds post :
  (forall c, In c ds \/ hd_error post = Some c ->
             re_digit rt c = true -> re_word rt c = true) ->
  letter a = true -> letter b = true ->
  (1 <= List.length ds <= 4)%nat ->
  forallb (re_digit rt) ds = true ->
  xorb (word_at (re_word rt) (char_before None pre)) (re_word rt a) = true ->
  xorb (word_at (re_word rt) (char_before (Some b) ds))
       (word_at (re_word rt) (hd_error post)) = true ->
  exists caps,
    re_search rt (flight_number_regex rt letter) (pre ++ a :: b :: ds ++ post)
    = Some caps.
Proof.
  intros Hdw Ha Hb Hlen Hd B1 B2. unfold re_search.
  apply (search_from_found (re_word rt) (flight_number_regex rt letter) None
           pre (a :: b :: ds ++ post) [a :: b :: ds]).
  unfold flight_number_regex. cbn [rmatch hd_error word_at].
  rewrite B1.
  apply (rep_greedy letter 2 (Some 2) (char_before None pre)
           [a; b] (ds ++ post)).
  - simpl. now rewrite Ha, Hb.
  - simpl. lia.
  - simpl. lia.
  - left. reflexivity.
  - cbn [char_before fold_left].
    assert (Hlast : word_at (re_word rt) (char_before (Some b) ds) = true).
    { destruct (char_before_nonempty (Some b) ds) as (c & -> & Hin).
      - intros ->. simpl in Hlen. lia.
      - simpl. apply Hdw; [left; exact Hin |].
        rewrite forallb_forall in Hd. auto. }
    apply rep_greedy; auto; try lia.
    + right. destruct post as [| c post]; [exact I |].
      rewrite Hlast in B2. simpl in B2.
      destruct (re_digit rt c) eqn:Hc; [| reflexivity].
      rewrite (Hdw c) in B2; [discriminate | right; reflexivity | exact Hc].
    + cbn [rmatch]. rewrite B2.
      assert (Hcap : (List.length (a :: b :: ds ++ post) - List.length post)%nat
                     = S (S (List.length ds))).
      { change (List.length (a :: b :: ds ++ post))
          with (S (S (List.length (ds ++ post)))).
        rewrite length_app. lia. }
      change (Some ([] ++ [firstn (List.length (a :: b :: ds ++ post)
                                   - List.length post)
                             (a :: b :: ds ++ post)])
              = Some [a :: b :: ds]).
      rewrite Hcap. cbn [firstn app].
      rewrite firstn_app, Nat.sub_diag, firstn_all. cbn [firstn].
      now rewrite app_nil_r.
Qed.

(** X1. The router's regex finds a match in a query exactly when the
    query can be cut into a prefix, two letters (ASCII letters of either
    case, or one of the four code points that [re.IGNORECASE] adds), one
    to four digits and a rest, with a word boundary before the letters and
    one after the digits; five digits in a row, or a letter right after
    the digits, give no match there.  The direction from the shape to the
    match uses that the digits of the query are word characters. *)
Theorem router_hit_iff_shape rt query :
  (forall c, In c query -> re_digit rt c = true -> re_word rt c = true) ->
  (router_regex_hit rt query = true <->
   exists pre a b ds post,
     query = pre ++ a :: b :: ds ++ post
     /\ AZ_ignorecase a = true /\ AZ_ignorecase b = true
     /\ (1 <= List.length ds <= 4)%nat
     /\ forallb (re_digit rt) ds = true
     /\ xorb (word_at (re_word rt) (char_before None pre)) (re_word rt a) = true
     /\ xorb (word_at (re_word rt) (char_before (Some b) ds))
             (word_at (re_word rt) (hd_error post)) = true).
Proof.
  intro Hdw. unfold router_regex_hit. split.
  - destruct (re_search _ _ _) as [caps |] eqn:E; [| discriminate].
    intros _. apply flight_search_shape in E.
    destruct E as (pre & a & b & ds & post & Hq & _ & H).
    exists pre, a, b, ds, post. auto.
  - intros (pre & a & b & ds & post & -> & Ha & Hb & Hlen & Hd & B1 & B2).
    destruct (flight_shape_search rt AZ_ignorecase pre a b ds post)
      as (caps & ->); auto.
    intros c Hc. apply Hdw. rewrite in_app_iff. right. do 2 right.
    rewrite in_app_iff. destruct Hc as [Hc | Hc]; [left; exact Hc |].
    right. destruct post; [discriminate |]. injection Hc as ->. left.
    reflexivity.
Qed.

Lemma router_hit_iff_shape_witness :
  router_regex_hit rt_ascii (lit "is ua1234 late?") = true.
Proof.
  apply (proj2 (router_hit_iff_shape rt_ascii (lit "is ua1234 late?")
                  ltac:(intros c Hc; vm_compute in Hc;
                        repeat (destruct Hc as [<- | Hc];
                                [vm_compute; auto |]);
                        destruct Hc))).
  exists (lit "is "), 117%N, 97%N, (lit "1234"), (lit " late?").
  repeat split; vm_compute; auto.
Defined.

(** ** ASCII case mapping and the character classes *)

(** A property of code points below 128 can be checked on each of them. *)
Lemma ascii_forall (P : N -> bool) :
  forallb P (map N.of_nat (seq 0 128)) = true ->
  forall c, is_ascii c = true -> P c = true.
Proof.
  intros H c Hc. rewrite forallb_forall in H. apply H.
  unfold is_ascii in Hc. apply N.ltb_lt in Hc.
  rewrite <- (N2Nat.id c). apply in_map. apply in_seq. lia.
Qed.

Lemma upper_is_ascii c : is_ascii c = true -> is_ascii (ascii_to_upper c) = true.
Proof.
  apply (ascii_forall (fun c => is_ascii (ascii_to_upper c))).
  vm_compute. reflexivity.
Qed.

Lemma upper_word rt c :
  is_ascii c = true -> re_word rt (ascii_to_upper c) = re_word rt c.
Proof.
  intro H. apply eqb_prop. revert c H.
  apply (ascii_forall
           (fun c => Bool.eqb (re_word rt (ascii_to_upper c)) (re_word rt c))).
  vm_compute. reflexivity.
Qed.

Lemma upper_digit rt c :
  is_ascii c = true -> re_digit rt (ascii_to_upper c) = re_digit rt c.
Proof.
  intro H. apply eqb_prop. revert c H.
  apply (ascii_forall
           (fun c => Bool.eqb (re_digit rt (ascii_to_upper c)) (re_digit rt c))).
  vm_compute. reflexivity.
Qed.

Lemma upper_letter c :
  is_ascii c = true -> AZ (ascii_to_upper c) = AZ_ignorecase c.
Proof.
  intro H. apply eqb_prop. revert c H.
  apply (ascii_forall
           (fun c => Bool.eqb (AZ (ascii_to_upper c)) (AZ_ignorecase c))).
  vm_compute. reflexivity.
Qed.

Lemma ascii_digit_word rt c :
  is_ascii c = true -> re_digit rt c = true -> re_word rt c = true.
Proof.
  intros H Hd.
  assert (Hi : implb (re_digit rt c) (re_word rt c) = true).
  { revert c H Hd. intros c H _. revert c H.
    apply (ascii_forall (fun c => implb (re_digit rt c) (re_word rt c))).
    vm_compute. reflexivity. }
  rewrite Hd in Hi. exact Hi.
Qed.

Lemma upper_ascii_string q :
  forallb is_ascii q = true -> forallb is_ascii (map ascii_to_upper q) = true.
Proof.
  induction q as [| c q IH]; simpl; [reflexivity |].
  rewrite !andb_true_iff. intros [Hc Hq]. auto using upper_is_ascii.
Qed.

Lemma char_before_map (f : N -> N) prev pre :
  char_before (option_map f prev) (map f pre)
  = option_map f (char_before prev pre).
Proof.
  revert prev. induction pre as [| c pre IH]; intro prev; [reflexivity |].
  simpl. apply (IH (Some c)).
Qed.

Lemma char_before_ascii prev pre c :
  match prev with Some p => is_ascii p = true | None => True end ->
  forallb is_ascii pre = true ->
  char_before prev pre = Some c -> is_ascii c = true.
Proof.
  revert prev. induction pre as [| x pre IH]; intros prev Hp Hpre H.
  - simpl in H. subst prev. exact Hp.
  - simpl in Hpre. apply andb_true_iff in Hpre. destruct Hpre as [Hx Hpre].
    apply (IH (Some x)); auto.
Qed.

Lemma word_at_upper rt x :
  match x with Some p => is_ascii p = true | None => True end ->
  word_at (re_word rt) (option_map ascii_to_upper x) = word_at (re_word rt) x.
Proof. destruct x; simpl; [apply upper_word | reflexivity]. Qed.

(** ** Router and status client on ASCII queries *)

Lemma search_iff_flight_number rt letter q :
  (forall c, In c q -> re_digit rt c = true -> re_word rt c = true) ->
  (exists caps, re_search rt (flight_number_regex rt letter) q = Some caps)
  <-> has_flight_number rt letter q.
Proof.
  intro Hdw. split.
  - intros (caps & E). apply flight_search_shape in E.
    destruct E as (pre & a & b & ds & post & Hq & _ & H).
    exists pre, a, b, ds, post. auto.
  - intros (pre & a & b & ds & post & -> & Ha & Hb & Hlen & Hd & B1 & B2).
    apply flight_shape_search; auto.
    intros c Hc. apply Hdw. rewrite in_app_iff. right. do 2 right.
    rewrite in_app_iff. destruct Hc as [Hc | Hc]; [left; exact Hc |].
    right. destruct post; [discriminate |]. injection Hc as ->. left.
    reflexivity.
Qed.

Lemma hd_error_map (f : N -> N) l :
  hd_error (map f l) = option_map f (hd_error l).
Proof. destruct l; reflexivity. Qed.

Lemma forallb_digit_upper rt ds :
  forallb is_ascii ds = true ->
  forallb (re_digit rt) (map ascii_to_upper ds) = forallb (re_digit rt) ds.
Proof.
  induction ds as [| d ds IH]; simpl; [reflexivity |].
  rewrite andb_true_iff. intros [Hd Hds].
  now rewrite upper_digit, IH.
Qed.

Lemma hd_error_ascii l :
  forallb is_ascii l = true ->
  match hd_error l with Some p => is_ascii p = true | None => True end.
Proof.
  destruct l; simpl; [trivial |]. rewrite andb_true_iff. tauto.
Qed.

Lemma char_before_ascii' prev pre :
  match prev with Some p => is_ascii p = true | None => True end ->
  forallb is_ascii pre = true ->
  match char_before prev pre with
  | Some p => is_ascii p = true
  | None => True
  end.
Proof.
  intros Hp Hpre. destruct (char_before prev pre) eqn:E; [| trivial].
  eapply char_before_ascii; eauto.
Qed.

(** Upper-casing an ASCII text neither creates nor destroys a flight
    number: what the case-insensitive pattern sees in the text, the
    plain pattern sees in the upper-cased text. *)
Lemma flight_number_upper rt q :
  forallb is_ascii q = true ->
  has_flight_number rt AZ_ignorecase q
  <-> has_flight_number rt AZ (map ascii_to_upper q).
Proof.
  intro Hq.
  assert (Hparts : forall pre a b ds post,
    q = pre ++ a :: b :: ds ++ post ->
    AZ (ascii_to_upper a) = AZ_ignorecase a
    /\ AZ (ascii_to_upper b) = AZ_ignorecase b
    /\ forallb (re_digit rt) (map ascii_to_upper ds)
       = forallb (re_digit rt) ds
    /\ xorb (word_at (re_word rt)
               (char_before None (map ascii_to_upper pre)))
            (re_word rt (ascii_to_upper a))
       = xorb (word_at (re_word rt) (char_before None pre)) (re_word rt a)
    /\ xorb (word_at (re_word rt)
               (char_before (Some (ascii_to_upper b))
                  (map ascii_to_upper ds)))
            (word_at (re_word rt) (hd_error (map ascii_to_upper post)))
       = xorb (word_at (re_word rt) (char_before (Some b) ds))
              (word_at (re_word rt) (hd_error post))).
  { intros pre a b ds post ->.
    rewrite forallb_app in Hq. cbn [forallb] in Hq.
    rewrite forallb_app in Hq. rewrite !andb_true_iff in Hq.
    destruct Hq as (Hpre & Ha & Hb & Hds & Hpost).
    split; [now apply upper_letter |]. split; [now apply upper_letter |].
    split; [now apply forallb_digit_upper |]. split.
    - change (@None N) with (option_map ascii_to_upper None) at 1.
      rewrite char_before_map, word_at_upper, upper_word; auto.
      apply char_before_ascii'; auto; exact I.
    - change (Some (ascii_to_upper b)) with (option_map ascii_to_upper (Some b)).
      rewrite char_before_map, hd_error_map, !word_at_upper; auto.
      + now apply hd_error_ascii.
      + apply char_before_ascii'; auto. }
  split.
  - intros (pre & a & b & ds & post & E & Ha & Hb & Hlen & Hd & B1 & B2).
    destruct (Hparts pre a b ds post E) as (Ea & Eb & Ed & E1 & E2).
    exists (map ascii_to_upper pre), (ascii_to_upper a), (ascii_to_upper b),
           (map ascii_to_upper ds), (map ascii_to_upper post).
    rewrite E, map_app. cbn [map]. rewrite map_app, length_map.
    rewrite Ea, Eb, Ed, E1, E2. auto 10.
  - intros (pre' & a' & b' & ds' & post' & E & Ha & Hb & Hlen & Hd & B1 & B2).
    apply map_eq_app in E. destruct E as (pre & r & E & <- & Er).
    apply map_eq_cons in Er. destruct Er as (a & r1 & -> & <- & Er).
    apply map_eq_cons in Er. destruct Er as (b & r2 & -> & <- & Er).
    apply map_eq_app in Er. destruct Er as (ds & post & -> & <- & <-).
    destruct (Hparts pre a b ds post E) as (Ea & Eb & Ed & E1 & E2).
    exists pre, a, b, ds, post.
    rewrite length_map in Hlen. rewrite <- Ea, <- Eb, <- Ed, <- E1, <- E2.
    auto 10.
Qed.

Lemma ascii_digits_are_words rt q :
  forallb is_ascii q = true ->
  forall c, In c q -> re_digit rt c = true -> re_word rt c = true.
Proof.
  intros Hq c Hc. apply ascii_digit_word.
  rewrite forallb_forall in Hq. auto.
Qed.

Lemma router_hit_iff_search rt q :
  router_regex_hit rt q = true
  <-> exists caps,
        re_search rt (flight_number_regex rt AZ_ignorecase) q = Some caps.
Proof.
  unfold router_regex_hit.
  destruct (re_search _ _ _); split; eauto; try discriminate.
  intros (caps & H). discriminate.
Qed.

Lemma extract_iff_search rt q :
  (exists fn, _extract_flight_number rt q = Some fn)
  <-> exists caps,
        re_search rt (flight_number_regex rt AZ) (str_upper rt q) = Some caps.
Proof.
  unfold _extract_flight_number. split.
  - intros (fn & H). destruct (re_search _ _ _); [eauto | discriminate].
  - intros (caps & H). rewrite H. apply flight_regex_group in H.
    destruct H as (g & -> & _). eauto.
Qed.

Lemma ascii_hit_iff_extract rt q :
  forallb is_ascii q = true ->
  router_regex_hit rt q = true
  <-> exists fn, _extract_flight_number rt q = Some fn.
Proof.
  intro Hq.
  rewrite router_hit_iff_search, extract_iff_search.
  unfold str_upper. rewrite Hq.
  rewrite !search_iff_flight_number.
  - now apply flight_number_upper.
  - apply ascii_digits_are_words. now apply upper_ascii_string.
  - now apply ascii_digits_are_words.
Qed.

Lemma status_found_code rt w ctx query fn t :
  _extract_flight_number rt query = Some fn ->
  exists response t' c,
    status_handle rt w ctx query t = (Returned response, t')
    /\ code_of response = Some (PStr (lit c))
    /\ In c (tl status_codes).
Proof.
  intro E. rewrite (status_handle_found rt w ctx query fn E).
  unfold try_except.
  destruct (status_lookup rt w ctx fn t) as [[r | e] t'] eqn:L.
  - unfold status_lookup, bind in L.
    destruct (_fetch_flight_data w fn t) as [[fd | e] t1]; [| discriminate].
    destruct (negb (truthy fd)).
    + injection L as <- <-. do 2 eexists. exists "NOT_FOUND"%string.
      repeat split. simpl. auto.
    + unfold lift in L.
      destruct (_format_flight_status rt ctx fn fd); [| discriminate].
      destruct (generate_content w _ t1) as [[x | e] t2]; [| discriminate].
      injection L as <- <-. do 2 eexists. exists "SUCCESS"%string.
      repeat split. simpl. auto 6.
  - do 2 eexists.
    exists (match e with
            | RequestsTimeout => "TIMEOUT"
            | RequestsConnectionError => "NETWORK_ERROR"
            | _ => "SYSTEM_ERROR"
            end)%string.
    split; [reflexivity |]. split; [apply status_except_code |].
    destruct e; simpl; auto 6.
Qed.

(** X2. A flight number extracted by the status client is two letters
    A-Z followed by one to four digits, so three to six code points, and
    it occurs in the upper-cased query between two word boundaries. *)
Theorem extracted_flight_number_shape rt query fn :
  _extract_flight_number rt query = Some fn ->
  exists pre a b ds post,
    fn = a :: b :: ds
    /\ str_upper rt query = pre ++ fn ++ post
    /\ AZ a = true /\ AZ b = true
    /\ (1 <= List.length ds <= 4)%nat
    /\ (3 <= List.length fn <= 6)%nat
    /\ forallb (re_digit rt) ds = true
    /\ xorb (word_at (re_word rt) (char_before None pre)) (re_word rt a) = true
    /\ xorb (word_at (re_word rt) (char_before (Some b) ds))
            (word_at (re_word rt) (hd_error post)) = true.
Proof.
  unfold _extract_flight_number.
  destruct (re_search _ _ _) as [caps |] eqn:E; [| discriminate].
  apply flight_search_shape in E.
  destruct E as (pre & a & b & ds & post & Hq & -> & Ha & Hb & Hlen & Hd
                 & B1 & B2).
  intros [= <-]. exists pre, a, b, ds, post.
  rewrite Hq. cbn [app List.length]. repeat split; auto; lia.
Qed.

Lemma extracted_flight_number_shape_witness :
  exists pre a b ds post,
    lit "DL42" = a :: b :: ds
    /\ str_upper rt_ascii (lit "is dl42 late?") = pre ++ lit "DL42" ++ post
    /\ AZ a = true /\ AZ b = true
    /\ (1 <= List.length ds <= 4)%nat
    /\ (3 <= List.length (lit "DL42") <= 6)%nat
    /\ forallb (re_digit rt_ascii) ds = true
    /\ xorb (word_at (re_word rt_ascii) (char_before None pre))
            (re_word rt_ascii a) = true
    /\ xorb (word_at (re_word rt_ascii) (char_before (Some b) ds))
            (word_at (re_word rt_ascii) (hd_error post)) = true.
Proof.
  apply (extracted_flight_number_shape rt_ascii (lit "is dl42 late?")).
  vm_compute. reflexivity.
Defined.

(** X3. On a query of ASCII characters the router's regex and the status
    client's extraction agree: the router routes to the status client by
    regex exactly when the client finds a flight number, so a query routed
    that way is never answered with 'INVALID_INPUT'. *)
Theorem ascii_router_and_extraction_agree rt query :
  forallb is_ascii query = true ->
  (router_regex_hit rt query = true
   <-> exists fn, _extract_flight_number rt query = Some fn)
  /\ (router_regex_hit rt query = true ->
      forall w ctx t,
        ~ returns_code (status_handle rt w ctx query t) "INVALID_INPUT").
Proof.
  intro Hq. split; [now apply ascii_hit_iff_extract |].
  intros Hhit w ctx t (response & Hr & Hc).
  apply (ascii_hit_iff_extract rt query Hq) in Hhit.
  destruct Hhit as (fn & E).
  destruct (status_found_code rt w ctx query fn t E)
    as (r & t' & c & Hrun & Hcode & Hin).
  rewrite Hrun in Hr. injection Hr as <-. rewrite Hcode in Hc.
  simpl in Hin.
  repeat (destruct Hin as [<- | Hin]; [vm_compute in Hc; discriminate |]).
  destruct Hin.
Qed.

Lemma ascii_router_and_extraction_agree_witness :
  (router_regex_hit rt_ascii status_query = true
   <-> exists fn, _extract_flight_number rt_ascii status_query = Some fn)
  /\ (router_regex_hit rt_ascii status_query = true ->
      forall w ctx t,
        ~ returns_code (status_handle rt_ascii w ctx status_query t)
            "INVALID_INPUT").
Proof.
  apply (ascii_router_and_extraction_agree rt_ascii status_query).
  vm_compute. reflexivity.
Defined.

(** X4. Every response of the status client carries one of six codes:
    'INVALID_INPUT', 'NOT_FOUND', 'TIMEOUT', 'NETWORK_ERROR',
    'SYSTEM_ERROR' or 'SUCCESS'; and 'INVALID_INPUT' is the code exactly
    when no flight number can be extracted from the query. *)
Theorem status_code_is_known rt w ctx query t :
  exists response t' c,
    status_handle rt w ctx query t = (Returned response, t')
    /\ code_of response = Some (PStr (lit c))
    /\ In c status_codes
    /\ (c = "INVALID_INPUT"%string
        <-> _extract_flight_number rt query = None).
Proof.
  destruct (_extract_flight_number rt query) as [fn |] eqn:E.
  - destruct (status_found_code rt w ctx query fn t E)
      as (r & t' & c & Hrun & Hcode & Hin).
    exists r, t', c. repeat split; auto.
    + right. exact Hin.
    + intros ->. simpl in Hin.
      repeat (destruct Hin as [Hin | Hin]; [discriminate |]). destruct Hin.
    + discriminate.
  - unfold status_handle. rewrite E.
    do 2 eexists. exists "INVALID_INPUT"%string.
    repeat split; simpl; auto.
Qed.

(** ** The status client's lookups *)

Lemma fetch_trace w fn t :
  snd (_fetch_flight_data w fn t) = t ++ [HTTPGet fn].
Proof.
  unfold _fetch_flight_data, bind, call, lift, ret.
  repeat (cbv beta iota; split_outcome); reflexivity.
Qed.

Lemma fetch_first w fn record t :
  lists_first w fn record ->
  _fetch_flight_data w fn t = (Returned record, t ++ [HTTPGet fn]).
Proof.
  intros (r & d & others & Hr & Hs & Hb & Hd).
  unfold _fetch_flight_data, bind, call, lift, ret.
  rewrite Hr, Hs, Hb. unfold py_get, py_getitem. rewrite Hd. reflexivity.
Qed.

(** X5. The status client makes no external call when it finds no flight
    number; otherwise it makes one request to the flight endpoint, for the
    extracted number, followed by at most one model call, which is the
    summary prompt for the formatted report of the fetched record.  It
    never queries the warehouse. *)
Theorem status_calls rt w ctx query t :
  (_extract_flight_number rt query = None ->
   snd (status_handle rt w ctx query t) = t)
  /\
  (forall fn,
     _extract_flight_number rt query = Some fn ->
     snd (status_handle rt w ctx query t) = t ++ [HTTPGet fn]
     \/ exists record report,
          fst (_fetch_flight_data w fn t) = Returned record
          /\ truthy record = true
          /\ _format_flight_status rt ctx fn record = Returned report
          /\ snd (status_handle rt w ctx query t)
             = t ++ [HTTPGet fn; LLMCall (summary_prompt report)])
  /\ bq_calls (snd (status_handle rt w ctx query t)) = bq_calls t.
Proof.
  assert (Hnone : _extract_flight_number rt query = None ->
                  snd (status_handle rt w ctx query t) = t).
  { intro E. unfold status_handle. rewrite E. reflexivity. }
  assert (Hsome : forall fn,
     _extract_flight_number rt query = Some fn ->
     snd (status_handle rt w ctx query t) = t ++ [HTTPGet fn]
     \/ exists record report,
          fst (_fetch_flight_data w fn t) = Returned record
          /\ truthy record = true
          /\ _format_flight_status rt ctx fn record = Returned report
          /\ snd (status_handle rt w ctx query t)
             = t ++ [HTTPGet fn; LLMCall (summary_prompt report)]).
  { intros fn E. rewrite (status_handle_found rt w ctx query fn E).
    unfold try_except, status_lookup, bind.
    pose proof (fetch_trace w fn t) as Ht.
    destruct (_fetch_flight_data w fn t) as [[fd | e] t1]; cbn [snd] in Ht;
      subst t1; [| left; reflexivity].
    destruct (truthy fd) eqn:Hfd; cbn [negb]; [| left; reflexivity].
    unfold lift.
    destruct (_format_flight_status rt ctx fn fd) as [report | e] eqn:F;
      [| left; reflexivity].
    right. exists fd, report. repeat split; auto.
    unfold generate_content, call.
    destruct (gemini w (summary_prompt report)); cbn [snd ret];
      now rewrite <- app_assoc. }
  repeat split; auto.
  destruct (_extract_flight_number rt query) as [fn |] eqn:E.
  - destruct (Hsome fn eq_refl) as [-> | (fd & report & _ & _ & _ & ->)];
      unfold bq_calls; rewrite filter_app; simpl; apply app_nil_r.
  - now rewrite Hnone.
Qed.

Lemma status_calls_witness :
  snd (status_handle rt_ascii world_no_records (PDict []) status_query [])
  = [] ++ [HTTPGet (lit "AA123")]
  \/ exists record report,
       fst (_fetch_flight_data world_no_records (lit "AA123") [])
       = Returned record
       /\ truthy record = true
       /\ _format_flight_status rt_ascii (PDict []) (lit "AA123") record
          = Returned report
       /\ snd (status_handle rt_ascii world_no_records (PDict [])
                 status_query [])
          = [] ++ [HTTPGet (lit "AA123");
                   LLMCall (summary_prompt report)].
Proof.
  apply (proj1 (proj2 (status_calls rt_ascii world_no_records (PDict [])
                         status_query [])) (lit "AA123")).
  vm_compute. reflexivity.
Defined.

(** X6. When the endpoint lists a truthy record first, the report for it
    can be formatted and the model returns a summary, the status client
    answers 'SUCCESS' with the summary, trimmed, as its data; the records
    after the first are not looked at, and the calls made are the lookup
    and the summary prompt, in that order. *)
Theorem status_success rt w ctx query fn record report text t :
  _extract_flight_number rt query = Some fn ->
  lists_first w fn record ->
  truthy record = true ->
  _format_flight_status rt ctx fn record = Returned report ->
  gemini w (summary_prompt report) = Returned text ->
  status_handle rt w ctx query t
  = (Returned [ (lit "code", PStr (lit "SUCCESS"));
                (lit "message", PStr (lit "Flight status retrieved successfully."));
                (lit "data", PStr (str_strip rt text)) ],
     t ++ [HTTPGet fn; LLMCall (summary_prompt report)]).
Proof.
  intros E Hf Ht Hr Hg. rewrite (status_handle_found rt w ctx query fn E).
  unfold try_except, status_lookup, bind.
  rewrite (fetch_first w fn record t Hf), Ht. cbn [negb].
  unfold lift. rewrite Hr. unfold generate_content, call. rewrite Hg.
  unfold ret. now rewrite <- app_assoc.
Qed.

Lemma status_success_witness :
  exists report,
    status_handle rt_ascii
      (world_listing (lit " On time, no gate yet. ")
         (PDict (flight_record None)))
      (PDict []) status_query []
    = (Returned [ (lit "code", PStr (lit "SUCCESS"));
                  (lit "message",
                   PStr (lit "Flight status retrieved successfully."));
                  (lit "data",
                   PStr (str_strip rt_ascii (lit " On time, no gate yet. "))) ],
       [] ++ [HTTPGet (lit "AA123"); LLMCall (summary_prompt report)]).
Proof.
  eexists.
  apply (status_success rt_ascii
           (world_listing (lit " On time, no gate yet. ")
              (PDict (flight_record None)))
           (PDict []) status_query (lit "AA123")
           (PDict (flight_record None))).
  - vm_compute. reflexivity.
  - do 3 eexists. repeat split; reflexivity.
  - reflexivity.
  - vm_compute. reflexivity.
  - reflexivity.
Defined.

Lemma lookup_raised rt w ctx query fn e t :
  _extract_flight_number rt query = Some fn ->
  _fetch_flight_data w fn t = (Raised e, t ++ [HTTPGet fn]) ->
  status_handle rt w ctx query t
  = (Returned (status_except rt e), t ++ [HTTPGet fn]).
Proof.
  intros E Hf. rewrite (status_handle_found rt w ctx query fn E).
  unfold try_except, status_lookup, bind. rewrite Hf. reflexivity.
Qed.

(** X7. What the status client makes of a lookup that yields no usable
    record, always after the one request and without a model call: an
    HTTP status from 400 to 599, a body that is not JSON, and a JSON body
    that is not an object each give 'SYSTEM_ERROR'; a data list whose
    first record is empty or null gives 'NOT_FOUND', whatever follows it
    in the list. *)
Theorem status_unusable_lookup rt w ctx query fn r t :
  _extract_flight_number rt query = Some fn ->
  aviationstack w fn = Returned r ->
  ((400 <= status_code r < 600)%Z ->
   returns_code_with (status_handle rt w ctx query t) "SYSTEM_ERROR"
     (t ++ [HTTPGet fn]))
  /\
  (raise_for_status r = Returned tt ->
   (body r = Raised JSONDecodeError ->
    returns_code_with (status_handle rt w ctx query t) "SYSTEM_ERROR"
      (t ++ [HTTPGet fn]))
   /\
   (forall v, body r = Returned v -> is_dict v = false ->
    returns_code_with (status_handle rt w ctx query t) "SYSTEM_ERROR"
      (t ++ [HTTPGet fn]))
   /\
   (forall d record others,
      body r = Returned (PDict d) ->
      dict_get d (lit "data") = Some (PList (record :: others)) ->
      truthy record = false ->
      returns_code_with (status_handle rt w ctx query t) "NOT_FOUND"
        (t ++ [HTTPGet fn]))).
Proof.
  intros E Hr. split; [| intro Hs; repeat split].
  - intros [Hlo Hhi].
    rewrite (lookup_raised rt w ctx query fn HTTPError t E).
    + eexists. split; reflexivity.
    + unfold _fetch_flight_data, bind, call, lift. rewrite Hr.
      unfold raise_for_status.
      apply Z.leb_le in Hlo. apply Z.ltb_lt in Hhi. now rewrite Hlo, Hhi.
  - intro Hb.
    rewrite (lookup_raised rt w ctx query fn JSONDecodeError t E).
    + eexists. split; reflexivity.
    + unfold _fetch_flight_data, bind, call, lift. now rewrite Hr, Hs, Hb.
  - intros v Hb Hv.
    rewrite (lookup_raised rt w ctx query fn AttributeError t E).
    + eexists. split; reflexivity.
    + unfold _fetch_flight_data, bind, call, lift. rewrite Hr, Hs, Hb.
      destruct v; try discriminate; reflexivity.
  - intros d record others Hb Hd Hrec.
    rewrite (status_handle_found rt w ctx query fn E).
    unfold try_except, status_lookup, bind.
    rewrite (fetch_first w fn record t), Hrec.
    + eexists. split; reflexivity.
    + exists r, d, others. auto.
Qed.

Lemma status_unusable_lookup_witness :
  returns_code_with
    (status_handle rt_ascii (world_listing (lit "ok") (PDict []))
       (PDict []) status_query [])
    "NOT_FOUND" ([] ++ [HTTPGet (lit "AA123")])
  /\
  returns_code_with
    (status_handle rt_ascii
       (world_of (lit "ok")
          (Returned {| status_code := 404;
                       body := Returned (PDict []) |}))
       (PDict []) status_query [])
    "SYSTEM_ERROR" ([] ++ [HTTPGet (lit "AA123")]).
Proof.
  split.
  - refine (proj2 (proj2 (proj2 (status_unusable_lookup rt_ascii
              (world_listing (lit "ok") (PDict [])) (PDict []) status_query
              (lit "AA123") _ [] _ _) _))
              [(lit "data", PList [PDict []])] (PDict []) [] _ _ _);
      reflexivity.
  - refine (proj1 (status_unusable_lookup rt_ascii
              (world_of (lit "ok")
                 (Returned {| status_code := 404;
                              body := Returned (PDict []) |}))
              (PDict []) status_query (lit "AA123") _ [] _ _) _);
      try reflexivity.
    simpl. lia.
Defined.

(** ** Records the formatter rejects *)

(** Formatting fails only with [AttributeError]. *)
Lemma report_lines_raises rt ctx fn flight e :
  report_lines rt ctx fn flight = Raised e -> e = AttributeError.
Proof.
  unfold report_lines.
  assert (Hget : forall v k d e', py_get v k d = Raised e' ->
                                  e' = AttributeError).
  { intros v k d e'. destruct v; simpl; congruence. }
  assert (Hlow : forall v e', py_lower rt v = Raised e' -> e' = AttributeError).
  { intros v e'. destruct v; simpl; congruence. }
  assert (Hcap : forall v e', py_capitalize rt v = Raised e' ->
                              e' = AttributeError).
  { intros v e'. destruct v; simpl; congruence. }
  assert (Hpref : forall u fs e', preferred_in rt u fs = Raised e' ->
                                  e' = AttributeError).
  { intros u fs e'. unfold preferred_in. destruct (truthy u); [| discriminate].
    induction fs as [| f fs IH]; [discriminate |].
    destruct (py_lower rt u) eqn:Hu; cbn [obind];
      [| intros [= <-]; eapply Hlow; eauto].
    destruct (py_lower rt f) eqn:Hf; cbn [obind];
      [| intros [= <-]; eapply Hlow; eauto].
    destruct (str_contains a a0); [discriminate | exact IH]. }
  repeat match goal with
         | |- obind ?o _ = Raised _ -> _ =>
           let H := fresh in
           destruct o eqn:H; cbn [obind]; cbv beta zeta;
           [| intros [= <-];
              first [ eapply Hget; eassumption
                    | eapply Hpref; eassumption
                    | eapply Hcap; eassumption ] ]
         end.
  discriminate.
Qed.

Lemma format_raises rt ctx fn flight e :
  _format_flight_status rt ctx fn flight = Raised e -> e = AttributeError.
Proof.
  unfold _format_flight_status.
  destruct (report_lines rt ctx fn flight) eqn:H; [discriminate |].
  intros [= <-]. eapply report_lines_raises; eauto.
Qed.

Lemma format_rejects rt ctx fn d :
  (exists v, dict_get d (lit "airline") = Some v /\ is_dict v = false)
  \/ (exists v, dict_get d (lit "flight_status") = Some v /\ is_str v = false) ->
  _format_flight_status rt ctx fn (PDict d) = Raised AttributeError.
Proof.
  intro H.
  destruct (_format_flight_status rt ctx fn (PDict d)) as [report | e] eqn:F.
  - exfalso. unfold _format_flight_status in F.
    apply obind_returned in F. destruct F as (lines & F & _).
    unfold report_lines in F.
    obind_step F airline0 Hairline0. obind_step F airline Hairline.
    obind_step F status0 Hstatus0. obind_step F status Hstatus.
    unfold py_get in Hairline0, Hstatus0.
    destruct H as [(v & Hv & Hk) | (v & Hv & Hk)].
    + rewrite Hv in Hairline0. injection Hairline0 as <-.
      destruct v; discriminate.
    + rewrite Hv in Hstatus0. injection Hstatus0 as <-.
      destruct v; discriminate.
  - now rewrite (format_raises rt ctx fn (PDict d) e F).
Qed.

(** X8. When the endpoint's first record cannot be formatted, the status
    client answers 'SYSTEM_ERROR' after the lookup and never asks the
    model for a summary.  That is the case for every record whose
    [airline] entry is not an object or whose [flight_status] entry is not
    a string, null included. *)
Theorem status_unformattable_record rt w ctx query fn record t :
  _extract_flight_number rt query = Some fn ->
  lists_first w fn record ->
  truthy record = true ->
  (forall e,
     _format_flight_status rt ctx fn record = Raised e ->
     returns_code_with (status_handle rt w ctx query t) "SYSTEM_ERROR"
       (t ++ [HTTPGet fn]))
  /\
  (forall d,
     record = PDict d ->
     (exists v, dict_get d (lit "airline") = Some v /\ is_dict v = false)
     \/ (exists v, dict_get d (lit "flight_status") = Some v
                   /\ is_str v = false) ->
     returns_code_with (status_handle rt w ctx query t) "SYSTEM_ERROR"
       (t ++ [HTTPGet fn])).
Proof.
  intros E Hf Ht.
  assert (Hgen : forall e,
     _format_flight_status rt ctx fn record = Raised e ->
     returns_code_with (status_handle rt w ctx query t) "SYSTEM_ERROR"
       (t ++ [HTTPGet fn])).
  { intros e He. rewrite (status_handle_found rt w ctx query fn E).
    unfold try_except, status_lookup, bind.
    rewrite (fetch_first w fn record t Hf), Ht. cbn [negb].
    unfold lift. rewrite He.
    rewrite (format_raises rt ctx fn record e He).
    eexists. split; reflexivity. }
  split; [exact Hgen |].
  intros d -> Hbad. apply (Hgen AttributeError). now apply format_rejects.
Qed.

Lemma status_unformattable_record_witness :
  returns_code_with
    (status_handle rt_ascii
       (world_listing (lit "ok") (PDict [(lit "flight_status", PNone)]))
       (PDict []) status_query [])
    "SYSTEM_ERROR" ([] ++ [HTTPGet (lit "AA123")]).
Proof.
  refine (proj2 (status_unformattable_record rt_ascii
            (world_listing (lit "ok") (PDict [(lit "flight_status", PNone)]))
            (PDict []) status_query (lit "AA123")
            (PDict [(lit "flight_status", PNone)]) [] _ _ _)
            [(lit "flight_status", PNone)] eq_refl _).
  - vm_compute. reflexivity.
  - do 3 eexists. repeat split; reflexivity.
  - reflexivity.
  - right. exists PNone. split; reflexivity.
Defined.

(** ** Records the formatter accepts *)

(** X9. A record formats without error whenever it is an object whose
    [airline], [departure] and [arrival] entries are absent or objects and
    whose [flight_status] entry is absent or a string, and the caller has
    no preferred airline or airport; the report then has exactly seven
    lines, since no personalisation entry is added. *)
Theorem well_typed_record_formats rt c fn d :
  absent_or is_dict (dict_get d (lit "airline")) = true ->
  absent_or is_str (dict_get d (lit "flight_status")) = true ->
  absent_or is_dict (dict_get d (lit "departure")) = true ->
  absent_or is_dict (dict_get d (lit "arrival")) = true ->
  truthy (default (dict_get c (lit "preferred_airline")) PNone) = false ->
  truthy (default (dict_get c (lit "preferred_airport")) PNone) = false ->
  exists lines,
    report_lines rt (PDict c) fn (PDict d) = Returned lines
    /\ List.length lines = 7%nat
    /\ _format_flight_status rt (PDict c) fn (PDict d)
       = Returned (str_join nl lines).
Proof.
  intros Ha Hs Hd Hr Hua Hup.
  assert (H : exists lines,
            report_lines rt (PDict c) fn (PDict d) = Returned lines
            /\ List.length lines = 7%nat).
  { unfold report_lines. cbn [py_get obind].
    destruct (dict_get d (lit "airline")) as [[] |]; try discriminate;
    destruct (dict_get d (lit "flight_status")) as [[] |]; try discriminate;
    destruct (dict_get d (lit "departure")) as [[] |]; try discriminate;
    destruct (dict_get d (lit "arrival")) as [[] |]; try discriminate;
    cbn [py_get obind py_capitalize];
    unfold default in Hua, Hup; unfold preferred_in;
    destruct (dict_get c (lit "preferred_airline")) as [ua |];
    destruct (dict_get c (lit "preferred_airport")) as [up |];
    rewrite ?Hua, ?Hup; cbn [truthy obind];
    eexists; split; reflexivity. }
  destruct H as (lines & Hl & Hn). exists lines.
  unfold _format_flight_status. rewrite Hl. auto.
Qed.

Lemma well_typed_record_formats_witness :
  exists lines,
    report_lines rt_ascii (PDict []) (lit "AA123") (PDict []) = Returned lines
    /\ List.length lines = 7%nat
    /\ _format_flight_status rt_ascii (PDict []) (lit "AA123") (PDict [])
       = Returned (str_join nl lines).
Proof.
  apply (well_typed_record_formats rt_ascii [] (lit "AA123") []);
    reflexivity.
Defined.

(** X10. When the caller's preferred airline, lower-cased, occurs in the
    lower-cased airline name of the record, every report formatted for the
    record has an eighth entry, which begins with a line break and
    '[Personalized] This is your preferred airline!'; the sentence about
    the preferred airport, if any, follows it in the same entry. *)
Theorem preferred_airline_is_marked rt c fn d airline0 ua name lines :
  dict_get c (lit "preferred_airline") = Some (PStr ua) ->
  ua <> [] ->
  py_get (PDict d) (lit "airline") (PDict []) = Returned airline0 ->
  py_get airline0 (lit "name") (PStr (lit "Unknown Airline"))
  = Returned (PStr name) ->
  str_contains (str_lower rt ua) (str_lower rt name) = true ->
  report_lines rt (PDict c) fn (PDict d) = Returned lines ->
  List.length lines = 8%nat
  /\ (nth_error lines 7
      = Some (nl ++ lit "[Personalized] This is your preferred airline!")
      \/ nth_error lines 7
         = Some ((nl ++ lit "[Personalized] This is your preferred airline!")
                 ++ nl
                 ++ lit "[Personalized] This route includes your preferred airport!")).
Proof.
  intros Hua Hne Ha0 Hname Hin H. unfold report_lines in H.
  obind_step H airline0' Hairline0. obind_step H airline Hairline.
  obind_step H status0 Hstatus0. obind_step H status Hstatus.
  obind_step H dep Hdep. obind_step H arr Harr.
  obind_step H dep_airport H1. obind_step H dep_city0 H2.
  obind_step H dep_code H3. obind_step H arr_airport H4.
  obind_step H arr_city0 H5. obind_step H arr_code H6.
  obind_step H dep_scheduled H7. obind_step H dep_actual H8.
  obind_step H arr_scheduled H9. obind_step H arr_estimated H10.
  obind_step H gate0 H11. obind_step H terminal0 H12.
  obind_step H delay Hdelay.
  obind_step H user_airline H13. obind_step H user_airport H14.
  obind_step H hit_airline H15. obind_step H hit_airport H16.
  injection H as <-.
  rewrite Ha0 in Hairline0. injection Hairline0 as <-.
  rewrite Hname in Hairline. injection Hairline as <-.
  unfold py_get in H13. rewrite Hua in H13. injection H13 as <-.
  unfold preferred_in in H15.
  assert (Htruthy : truthy (PStr ua) = true) by (destruct ua; [congruence | reflexivity]).
  rewrite Htruthy in H15. cbn [py_lower obind] in H15. rewrite Hin in H15.
  injection H15 as <-.
  destruct hit_airport; (split; [reflexivity |]); [right | left]; reflexivity.
Qed.

Lemma preferred_airline_is_marked_witness :
  exists lines,
    report_lines rt_ascii (PDict [(lit "preferred_airline", PStr (lit "American"))])
      (lit "AA123") (PDict (flight_record None)) = Returned lines
    /\ List.length lines = 8%nat
    /\ (nth_error lines 7
        = Some (nl ++ lit "[Personalized] This is your preferred airline!")
        \/ nth_error lines 7
           = Some ((nl ++ lit "[Personalized] This is your preferred airline!")
                   ++ nl
                   ++ lit "[Personalized] This route includes your preferred airport!")).
Proof.
  eexists. split; [vm_compute; reflexivity |].
  apply (preferred_airline_is_marked rt_ascii
           [(lit "preferred_airline", PStr (lit "American"))] (lit "AA123")
           (flight_record None)
           (PDict [(lit "name", PStr (lit "American Airlines"))])
           (lit "American") (lit "American Airlines")).
  - reflexivity.
  - discriminate.
  - reflexivity.
  - reflexivity.
  - vm_compute. reflexivity.
  - vm_compute. reflexivity.
Defined.

(** ** The analytics client's table and memory *)

(** X11. The table of results shows at most five rows.  Without rows it
    is the text 'No results found'; with up to five rows it has no
    closing note; with more than five it is the table of the first five
    rows followed by a line break and 'Showing 5 of <n> records', so the
    rows after the fifth do not show. *)
Theorem table_shows_five_rows rt data :
  (data = [] -> _format_results rt data = lit "No results found")
  /\
  (data <> [] -> (List.length data <= 5)%nat ->
   _format_results rt data
   = str_join (lit " | ") (map fst (hd [] data)) ++ nl ++ repeat 45%N 50 ++ nl
     ++ flat_map (fun row =>
                    str_join (lit " | ")
                      (map (row_get rt row) (map fst (hd [] data))) ++ nl)
                 data)
  /\
  ((5 < List.length data)%nat ->
   _format_results rt data
   = _format_results rt (firstn 5 data) ++ nl ++ lit "Showing 5 of "
     ++ str_of_Z (Z.of_nat (List.length data)) ++ lit " records").
Proof.
  split; [intros ->; reflexivity |]. split.
  - intros Hne Hlen. destruct data as [| first rest]; [congruence |].
    unfold _format_results. cbn [hd].
    rewrite firstn_all2 by exact Hlen.
    apply Nat.ltb_ge in Hlen. rewrite Hlen.
    rewrite <- !app_assoc. now rewrite app_nil_r.
  - intro Hlen. destruct data as [| first rest]; [simpl in Hlen; lia |].
    destruct rest as [| r2 [| r3 [| r4 [| r5 [| r6 rest]]]]];
      try (simpl in Hlen; lia).
    unfold _format_results.
    change (firstn 5 (first :: r2 :: r3 :: r4 :: r5 :: r6 :: rest))
      with [first; r2; r3; r4; r5].
    change (firstn 5 [first; r2; r3; r4; r5]) with [first; r2; r3; r4; r5].
    apply Nat.ltb_lt in Hlen. rewrite Hlen.
    change (Nat.ltb 5 (List.length [first; r2; r3; r4; r5])) with false.
    cbv iota. rewrite app_nil_r. rewrite <- !app_assoc. reflexivity.
Qed.

Lemma table_shows_five_rows_witness :
  _format_results rt_ascii
    (repeat [(lit "carrier", PStr (lit "AA")); (lit "on_time", PInt 91)] 7)
  = _format_results rt_ascii
      (firstn 5
         (repeat [(lit "carrier", PStr (lit "AA")); (lit "on_time", PInt 91)] 7))
    ++ nl ++ lit "Showing 5 of "
    ++ str_of_Z (Z.of_nat
         (List.length
            (repeat [(lit "carrier", PStr (lit "AA"));
                     (lit "on_time", PInt 91)] 7)))
    ++ lit " records".
Proof.
  apply (proj2 (proj2 (table_shows_five_rows rt_ascii
           (repeat [(lit "carrier", PStr (lit "AA"));
                    (lit "on_time", PInt 91)] 7)))).
  simpl. lia.
Defined.

Lemma update_field_dict_eq key slot ev memory :
  update_field key slot (PDict ev) memory
  = Returned (match dict_get ev key with
              | Some v => dict_set memory slot v
              | None => memory
              end).
Proof.
  unfold update_field, py_in, py_getitem, obind, dict_has.
  destruct (dict_get ev key); reflexivity.
Qed.

Lemma dict_get_update key slot ev memory k :
  dict_get (match dict_get ev key with
            | Some v => dict_set memory slot v
            | None => memory
            end) k
  = if str_eqb slot k
    then match dict_get ev key with
         | Some v => Some v
         | None => dict_get memory k
         end
    else dict_get memory k.
Proof.
  destruct (str_eqb slot k) eqn:E.
  - apply str_eqb_eq in E. subst k.
    destruct (dict_get ev key); [apply dict_get_set_same | reflexivity].
  - destruct (dict_get ev key); [now apply dict_get_set_other | reflexivity].
Qed.

(** X12. Merging extracted values that form an object into the analytics
    client's memory never fails.  Afterwards each of the slots
    last_origin, last_destination, last_year and last_limit holds the
    extracted value of its key when the key is present and its previous
    value otherwise, and every other entry of the memory, last_query_type
    among them, is as before; extracted keys other than the four are
    ignored. *)
Theorem memory_update_by_slot memory ev :
  exists memory',
    _update_memory memory (PDict ev) = Returned memory'
    /\ (forall key slot,
          In (key, slot) memory_slots ->
          dict_get memory' slot
          = match dict_get ev key with
            | Some v => Some v
            | None => dict_get memory slot
            end)
    /\ (forall k,
          (forall key slot, In (key, slot) memory_slots -> slot <> k) ->
          dict_get memory' k = dict_get memory k).
Proof.
  unfold _update_memory.
  rewrite update_field_dict_eq. cbn [obind].
  rewrite update_field_dict_eq. cbn [obind].
  rewrite update_field_dict_eq. cbn [obind].
  rewrite update_field_dict_eq.
  eexists. split; [reflexivity |]. split.
  - intros key slot Hin. rewrite !dict_get_update.
    unfold memory_slots in Hin.
    destruct Hin as [[= <- <-] | [[= <- <-] | [[= <- <-] | [[= <- <-] | []]]]];
      reflexivity.
  - intros k Hk. rewrite !dict_get_update.
    assert (Hneq : forall key slot, In (key, slot) memory_slots ->
                                    str_eqb slot k = false).
    { intros key slot Hin. destruct (str_eqb slot k) eqn:E; [| reflexivity].
      apply str_eqb_eq in E. now apply Hk in Hin. }
    rewrite (Hneq (lit "limit") (lit "last_limit")) by (simpl; auto 6).
    rewrite (Hneq (lit "year") (lit "last_year")) by (simpl; auto 6).
    rewrite (Hneq (lit "destination") (lit "last_destination"))
      by (simpl; auto 6).
    rewrite (Hneq (lit "origin") (lit "last_origin")) by (simpl; auto 6).
    reflexivity.
Qed.

Lemma memory_update_by_slot_witness :
  exists memory',
    _update_memory initial_memory
      (PDict [(lit "origin", PStr (lit "JFK")); (lit "airline", PStr (lit "AA"))])
    = Returned memory'
    /\ dict_get memory' (lit "last_origin") = Some (PStr (lit "JFK"))
    /\ dict_get memory' (lit "last_limit") = Some PNone
    /\ dict_get memory' (lit "airline") = None.
Proof.
  destruct (memory_update_by_slot initial_memory
              [(lit "origin", PStr (lit "JFK")); (lit "airline", PStr (lit "AA"))])
    as (memory' & Hrun & Hslot & Hother).
  exists memory'. split; [exact Hrun |]. split; [| split].
  - apply (Hslot (lit "origin") (lit "last_origin")). simpl. auto.
  - apply (Hslot (lit "limit") (lit "last_limit")). simpl. auto 6.
  - apply (Hother (lit "airline")).
    intros key slot [[= <- <-] | [[= <- <-] | [[= <- <-] | [[= <- <-] | []]]]];
      discriminate.
Defined.

(** ** The analytics client's outcomes *)

Lemma validate_accepts rt w query v t :
  model_answers rt w query v ->
  _validate_and_structure_sql rt w query t
  = (Returned v, t ++ [LLMCall (sql_prompt rt query)]).
Proof.
  intros (text & Hg & Hj & Hk).
  unfold _validate_and_structure_sql, try_except, bind, generate_content,
    call, lift.
  now rewrite Hg, Hj, Hk.
Qed.

Lemma update_initial_memory ev :
  exists m, _update_memory initial_memory (PDict ev) = Returned m.
Proof. apply update_memory_dict. Qed.

(** X13. For a model answer that is an object with the four required
    keys, no 'error' key and an object under extracted_values, the
    analytics client runs the answer's [sql] with the answer's
    [parameters] on the warehouse, exactly as the model gave them.  A
    failing query gives 'SYSTEM_ERROR', a result without rows gives
    'NOT_FOUND', and otherwise the table of results is summarised by the
    model: the summary, trimmed, is returned under 'SUCCESS' together with
    the answer's query_type, and a failing summary call gives
    'SYSTEM_ERROR'. *)
Theorem analytics_outcomes rt w query sql ps qt ev d t :
  model_answers rt w query (PDict d) ->
  dict_get d (lit "error") = None ->
  dict_get d (lit "sql") = Some sql ->
  dict_get d (lit "parameters") = Some ps ->
  dict_get d (lit "query_type") = Some qt ->
  dict_get d (lit "extracted_values") = Some (PDict ev) ->
  (forall e,
     bigquery w sql ps = Raised e ->
     returns_code_with (analytics_handle rt w query t) "SYSTEM_ERROR"
       (t ++ [LLMCall (sql_prompt rt query); BQQuery sql ps]))
  /\
  (forall result,
     bigquery w sql ps = Returned result ->
     (total_rows result = 0%Z ->
      returns_code_with (analytics_handle rt w query t) "NOT_FOUND"
        (t ++ [LLMCall (sql_prompt rt query); BQQuery sql ps]))
     /\
     (total_rows result <> 0%Z ->
      (forall text,
         gemini w (analytics_summary_prompt rt qt
                     (_format_results rt (rows result))) = Returned text ->
         analytics_handle rt w query t
         = (Returned [ (lit "code", PStr (lit "SUCCESS"));
                       (lit "message", PStr (lit "Analytics summary generated."));
                       (lit "data", PStr (str_strip rt text));
                       (lit "query_type", qt) ],
            t ++ [LLMCall (sql_prompt rt query); BQQuery sql ps;
                  LLMCall (analytics_summary_prompt rt qt
                             (_format_results rt (rows result)))]))
      /\
      (forall e,
         gemini w (analytics_summary_prompt rt qt
                     (_format_results rt (rows result))) = Raised e ->
         returns_code_with (analytics_handle rt w query t) "SYSTEM_ERROR"
           (t ++ [LLMCall (sql_prompt rt query); BQQuery sql ps;
                  LLMCall (analytics_summary_prompt rt qt
                             (_format_results rt (rows result)))])))).
Proof.
  intros Hm Herr Hsql Hps Hqt Hev.
  destruct (update_initial_memory ev) as (m & Hmem).
  assert (Hrun : analytics_handle rt w query t
    = try_except
        (results <- call (BQQuery sql ps) (bigquery w sql ps) ;;
         if Z.eqb (total_rows results) 0 then
           ret [ (lit "code", PStr (lit "NOT_FOUND"));
                 (lit "message", PStr (lit "No matching records found."));
                 (lit "details", PStr []);
                 (lit "suggestion", PStr (lit "Try a different query.")) ]
         else
           text <- generate_content w
                     (analytics_summary_prompt rt qt
                        (_format_results rt (rows results))) ;;
           ret [ (lit "code", PStr (lit "SUCCESS"));
                 (lit "message", PStr (lit "Analytics summary generated."));
                 (lit "data", PStr (str_strip rt text));
                 (lit "query_type", qt) ])
        (fun e =>
           ret [ (lit "code", PStr (lit "SYSTEM_ERROR"));
                 (lit "message", PStr (lit "Analytics error."));
                 (lit "details", PStr (exn_text rt e));
                 (lit "suggestion", PStr (lit "Please try again later.")) ])
        (t ++ [LLMCall (sql_prompt rt query)])).
  { unfold analytics_handle. unfold bind at 1.
    rewrite (validate_accepts rt w query (PDict d) t Hm).
    unfold bind at 1, lift, py_in, dict_has. rewrite Herr.
    unfold bind at 1, py_getitem at 1. rewrite Hev.
    unfold bind at 1. rewrite Hmem.
    unfold try_except, bind, lift, py_getitem. rewrite Hsql, Hps, Hqt.
    reflexivity. }
  rewrite Hrun. unfold try_except, bind, generate_content, call, ret.
  split.
  - intros e ->. rewrite <- app_assoc. eexists. split; reflexivity.
  - intros result ->. split.
    + intros ->. rewrite <- app_assoc. eexists. split; reflexivity.
    + intro Hrows. apply Z.eqb_neq in Hrows. rewrite Hrows. split.
      * intros text ->. now rewrite <- !app_assoc.
      * intros e ->. rewrite <- !app_assoc. eexists. split; reflexivity.
Qed.

Lemma analytics_outcomes_witness :
  returns_code_with
    (analytics_handle rt_answers
       (world_warehouse structured_query_text
          (Returned {| total_rows := 0; rows := [] |}))
       analytics_query [])
    "NOT_FOUND"
    ([] ++ [LLMCall (sql_prompt rt_answers analytics_query);
            BQQuery (PStr (lit "SELECT 1")) (PList [])]).
Proof.
  refine (proj1 (proj2 (analytics_outcomes rt_answers
            (world_warehouse structured_query_text
               (Returned {| total_rows := 0; rows := [] |}))
            analytics_query (PStr (lit "SELECT 1")) (PList [])
            (PStr (lit "general_analytics")) []
            (structured_query (PStr (lit "SELECT 1")) (PList [])
               (PStr (lit "general_analytics")) [])
            [] _ _ _ _ _ _)
            {| total_rows := 0; rows := [] |} eq_refl) eq_refl);
    try reflexivity.
  exists structured_query_text. repeat split; vm_compute; reflexivity.
Defined.

Lemma validate_trace rt w query t :
  snd (_validate_and_structure_sql rt w query t)
  = t ++ [LLMCall (sql_prompt rt query)].
Proof.
  unfold _validate_and_structure_sql, try_except, bind, generate_content,
    call, lift, raise, ret.
  repeat (cbv beta iota; split_outcome); reflexivity.
Qed.

(** X14. Two kinds of model answer pass the check of the four keys and
    still make the analytics client raise [TypeError] instead of returning
    a response, right after the SQL-generation call and before any
    warehouse query: an answer that is not an object (a JSON array or
    string in which the four names occur), and an object without 'error'
    key whose extracted_values is null, a boolean or a number. *)
Theorem unusable_answer_raises rt w query v t :
  model_answers rt w query v ->
  (is_dict v = false ->
   analytics_handle rt w query t
   = (Raised TypeError, t ++ [LLMCall (sql_prompt rt query)]))
  /\
  (forall d x,
     v = PDict d ->
     dict_get d (lit "error") = None ->
     dict_get d (lit "extracted_values") = Some x ->
     is_scalar x = true ->
     analytics_handle rt w query t
     = (Raised TypeError, t ++ [LLMCall (sql_prompt rt query)])).
Proof.
  intro Hm. pose proof Hm as (text & Hg & Hj & Hk). split.
  - intro Hv. unfold analytics_handle. unfold bind at 1.
    rewrite (validate_accepts rt w query v t Hm).
    unfold bind, lift.
    destruct v as [| b | z | f | s | l | d]; try discriminate.
    + cbn [py_in]. destruct (str_contains (lit "error") s); reflexivity.
    + cbn [py_in]. destruct (existsb _ l); reflexivity.
  - intros d x -> Herr Hev Hx. unfold analytics_handle. unfold bind at 1.
    rewrite (validate_accepts rt w query (PDict d) t Hm).
    unfold bind at 1, lift, py_in, dict_has. rewrite Herr.
    unfold bind at 1, py_getitem at 1. rewrite Hev.
    unfold bind at 1, _update_memory, update_field.
    destruct x; try discriminate; reflexivity.
Qed.

Lemma unusable_answer_raises_witness :
  analytics_handle rt_answers
    (world_warehouse key_list_text (Returned {| total_rows := 0; rows := [] |}))
    analytics_query []
  = (Raised TypeError, [] ++ [LLMCall (sql_prompt rt_answers analytics_query)])
  /\
  analytics_handle rt_answers
    (world_warehouse answer_bad_values_text
       (Returned {| total_rows := 0; rows := [] |}))
    analytics_query []
  = (Raised TypeError, [] ++ [LLMCall (sql_prompt rt_answers analytics_query)]).
Proof.
  split.
  - apply (proj1 (unusable_answer_raises rt_answers
             (world_warehouse key_list_text
                (Returned {| total_rows := 0; rows := [] |}))
             analytics_query key_list []
             ltac:(exists key_list_text; repeat split; vm_compute; reflexivity))).
    reflexivity.
  - refine (proj2 (unusable_answer_raises rt_answers
             (world_warehouse answer_bad_values_text
                (Returned {| total_rows := 0; rows := [] |}))
             analytics_query answer_bad_values []
             ltac:(exists answer_bad_values_text; repeat split;
                   vm_compute; reflexivity))
             _ (PInt 5) eq_refl _ _ _); reflexivity.
Defined.

Lemma analytics_trace_cases rt w query t :
  exists rest,
    snd (analytics_handle rt w query t)
    = t ++ LLMCall (sql_prompt rt query) :: rest
    /\ (rest = []
        \/ exists sql ps,
             rest = [BQQuery sql ps]
             \/ exists prompt, rest = [BQQuery sql ps; LLMCall prompt]).
Proof.
  unfold analytics_handle. unfold bind at 1.
  pose proof (validate_trace rt w query t) as Hv.
  destruct (_validate_and_structure_sql rt w query t) as [[v | e] t1];
    cbn [snd] in Hv; subst t1.
  - unfold bind, lift, try_except, generate_content, call, ret.
    repeat (cbv beta iota; split_outcome); cbv beta iota; cbn [snd];
      rewrite <- ?app_assoc; cbn [app]; eexists; (split; [reflexivity |]);
      first [ left; reflexivity
            | right; do 2 eexists; left; reflexivity
            | right; do 2 eexists; right; eexists; reflexivity ].
  - exists []. cbn [snd]. auto.
Qed.

(** X15. Whatever the model and the warehouse answer, the analytics
    client's first external call is the SQL-generation prompt for the
    query; after it come at most one warehouse query and, only after that
    query, at most one further model call.  The flight endpoint is never
    called. *)
Theorem analytics_calls rt w query t :
  exists rest,
    snd (analytics_handle rt w query t)
    = t ++ LLMCall (sql_prompt rt query) :: rest
    /\ (rest = []
        \/ exists sql ps,
             rest = [BQQuery sql ps]
             \/ exists prompt, rest = [BQQuery sql ps; LLMCall prompt]).
Proof. exact (analytics_trace_cases rt w query t). Qed.

(** ** The web handler's branches and memory *)

(** X16. A request whose query, as handed to the router, matches the
    flight-number regex is served by the status client alone, with the
    session's user context (an empty one when the session has none) and
    without any classification call.  If the flight endpoint's key is not
    configured, such a request is not answered at all: constructing the
    status client raises EnvironmentError out of the handler before any
    external call. *)
Theorem regex_routed_request rt w s r t :
  router_regex_hit rt (fst (chat_prepare rt s r)) = true ->
  (forall c key,
     aviationstack_api_key w = Some (c :: key) ->
     chat rt w s r t
     = (response <- status_handle rt w
                      (py_or (default (user_context s) (PDict [])) (PDict []))
                      (fst (chat_prepare rt s r)) ;;
        ret (snd (chat_prepare rt s r), add_subscription r response)) t)
  /\
  (aviationstack_api_key w = None \/ aviationstack_api_key w = Some [] ->
   chat rt w s r t
   = (Raised (EnvironmentError
        (lit "AVIATIONSTACK_API_KEY is not set in environment variables.")),
      t)).
Proof.
  intro Hhit.
  assert (Hrun : chat rt w s r t
    = (response <- dispatch rt w (default (user_context s) (PDict [])) true
                     (fst (chat_prepare rt s r)) ;;
       ret (snd (chat_prepare rt s r), add_subscription r response)) t).
  { unfold chat. destruct (chat_prepare rt s r) as [q' s']. cbn [fst snd] in *.
    unfold bind at 1. rewrite (router_hit rt w q' t Hhit).
    reflexivity. }
  rewrite Hrun. unfold dispatch, status_agent_init. split.
  - intros c key ->. reflexivity.
  - intros [-> | ->]; reflexivity.
Qed.

Lemma regex_routed_request_witness :
  chat rt_ascii world_without_key empty_session (plain_request status_query) []
  = (Raised (EnvironmentError
       (lit "AVIATIONSTACK_API_KEY is not set in environment variables.")),
     []).
Proof.
  apply (proj2 (regex_routed_request rt_ascii world_without_key empty_session
                  (plain_request status_query) []
                  ltac:(vm_compute; reflexivity))).
  left. reflexivity.
Defined.

Lemma carry_route_keeps rt q m k :
  route_match rt q = None -> dict_get (snd (carry_route rt q m)) k = dict_get m k.
Proof.
  intro H. unfold carry_route. rewrite H.
  destruct (dict_get m (lit "origin")), (dict_get m (lit "dest")); reflexivity.
Qed.

(** X17. A route given in one request is carried into the requests that
    follow.  After a request whose query has the route 'from XXX to YYY',
    a request without a route is handed to the router with
    ' from <XXX> to <YYY>' appended, the codes upper-cased; and a request
    without a route leaves the remembered origin and destination as they
    are, so the route keeps being appended until a new one is given. *)
Theorem route_remembered_across_requests rt s r1 r2 :
  route_match rt (req_query r2) = None ->
  (forall g1 g2,
     route_match rt (req_query r1) = Some (g1, g2) ->
     fst (chat_prepare rt (snd (chat_prepare rt s r1)) r2)
     = req_query r2 ++ lit " from " ++ str_upper rt g1 ++ lit " to "
         ++ str_upper rt g2)
  /\
  (exists memory',
     memory (snd (chat_prepare rt s r2)) = Some memory'
     /\ dict_get memory' (lit "origin")
        = dict_get (default (memory s) []) (lit "origin")
     /\ dict_get memory' (lit "dest")
        = dict_get (default (memory s) []) (lit "dest")).
Proof.
  intro H2. split.
  - intros g1 g2 H1.
    unfold chat_prepare at 2, carry_route. rewrite H1. cbn [snd].
    unfold chat_prepare, carry_route. rewrite H2. cbn [memory default].
    rewrite !track_intent_keeps by reflexivity.
    rewrite dict_get_set_other by reflexivity.
    rewrite !dict_get_set_same. reflexivity.
  - unfold chat_prepare.
    destruct (carry_route rt (req_query r2) (default (memory s) []))
      as [q m] eqn:E.
    cbn [snd memory]. eexists. split; [reflexivity |].
    rewrite !track_intent_keeps by reflexivity.
    assert (Hm : m = snd (carry_route rt (req_query r2) (default (memory s) [])))
      by now rewrite E.
    rewrite Hm, !carry_route_keeps by exact H2. auto.
Qed.

Lemma route_remembered_across_requests_witness :
  fst (chat_prepare rt_ascii
         (snd (chat_prepare rt_ascii empty_session
                 (request_of "on time airlines from jfk to lax")))
         (request_of "and on mondays?"))
  = lit "and on mondays?" ++ lit " from " ++ str_upper rt_ascii (lit "jfk")
      ++ lit " to " ++ str_upper rt_ascii (lit "lax").
Proof.
  apply (proj1 (route_remembered_across_requests rt_ascii empty_session
                  (request_of "on time airlines from jfk to lax")
                  (request_of "and on mondays?")
                  ltac:(vm_compute; reflexivity))).
  vm_compute. reflexivity.
Defined.

(** X18. The memory's last_intent is set to 'analytics' when the query
    handed to the router, lower-cased, contains 'analytics' or 'show me',
    and is otherwise left as it was: no request ever clears it or sets
    another intent, so it stays 'analytics' through later status
    requests. *)
Theorem last_intent_is_sticky rt s r :
  exists memory',
    memory (snd (chat_prepare rt s r)) = Some memory'
    /\ dict_get memory' (lit "last_intent")
       = if str_contains (lit "analytics")
              (str_lower rt (fst (chat_prepare rt s r)))
            || str_contains (lit "show me")
                 (str_lower rt (fst (chat_prepare rt s r)))
         then Some (PStr (lit "analytics"))
         else dict_get (default (memory s) []) (lit "last_intent").
Proof.
  unfold chat_prepare.
  destruct (carry_route rt (req_query r) (default (memory s) []))
    as [q m] eqn:E.
  cbn [fst snd memory]. eexists. split; [reflexivity |].
  unfold track_intent.
  destruct (_ || _).
  - apply dict_get_set_same.
  - unfold carry_route in E.
    destruct (route_match rt (req_query r)) as [[g1 g2] |].
    + injection E as <- <-. now rewrite !dict_get_set_other by reflexivity.
    + destruct (dict_get (default (memory s) []) (lit "origin"));
        [destruct (dict_get (default (memory s) []) (lit "dest")) |];
        injection E as <- <-; reflexivity.
Qed.

(** X19. Whenever the handler returns, the session it leaves is the one
    prepared before routing, whatever the agents answered, and the
    response is the agent's response with, for a request that asks to
    subscribe, the entry 'subscription' added: the code and every other
    entry of the agent's response are returned unchanged. *)
Theorem chat_returns_agent_response rt w s r t s' response t' :
  chat rt w s r t = (Returned (s', response), t') ->
  s' = snd (chat_prepare rt s r)
  /\ exists to_status t1 t2 agent_response,
       dispatch rt w (default (user_context s) (PDict [])) to_status
         (fst (chat_prepare rt s r)) t1
       = (Returned agent_response, t2)
       /\ response = add_subscription r agent_response
       /\ (forall k, k <> lit "subscription" ->
                     dict_get response k = dict_get agent_response k)
       /\ code_of response = code_of agent_response.
Proof.
  unfold chat. destruct (chat_prepare rt s r) as [q' s0]. cbn [fst snd].
  unfold bind, lift, ret.
  destruct (router_handle rt w q' t) as [[routing | e] t1]; [| discriminate].
  destruct (routed_to_status routing) as [b | e]; [| discriminate].
  destruct (dispatch rt w _ b q' t1) as [[resp | e] t2] eqn:D;
    [| discriminate].
  intros [= <- <- <-]. split; [reflexivity |].
  exists b, t1, t2, resp. split; [exact D |]. split; [reflexivity |].
  assert (Hk : forall k, k <> lit "subscription" ->
               dict_get (add_subscription r resp) k = dict_get resp k).
  { intros k Hk. unfold add_subscription.
    destruct (truthy (req_subscribe r)); [| reflexivity].
    apply dict_get_set_other.
    destruct (str_eqb (lit "subscription") k) eqn:Eq; [| reflexivity].
    apply str_eqb_eq in Eq. congruence. }
  split; [exact Hk |]. apply Hk. discriminate.
Qed.

Lemma chat_returns_agent_response_witness :
  exists to_status t1 t2 agent_response,
    dispatch rt_ascii world_down
      (default (user_context empty_session) (PDict [])) to_status
      (fst (chat_prepare rt_ascii empty_session
              {| req_query := status_query; req_subscribe := PBool true |})) t1
    = (Returned agent_response, t2)
    /\ code_of agent_response = Some (PStr (lit "NETWORK_ERROR"))
    /\ (exists s' response t',
          chat rt_ascii world_down empty_session
            {| req_query := status_query; req_subscribe := PBool true |} []
          = (Returned (s', response), t')
          /\ dict_get response (lit "subscription")
             = Some (PStr (lit "Subscription feature coming soon!"))
          /\ code_of response = code_of agent_response).
Proof.
  pose proof (chat_returns_agent_response rt_ascii world_down empty_session
                {| req_query := status_query; req_subscribe := PBool true |}
                [] _ _ _ eq_refl) as (_ & b & t1 & t2 & a & Hd & Hr & _ & Hc).
  exists b, t1, t2, a. split; [exact Hd |].
  split; [rewrite <- Hc; vm_compute; reflexivity |].
  do 3 eexists. split; [reflexivity |]. split; [vm_compute; reflexivity |].
  exact Hc.
Defined.



(** ** The calls of one request *)

Lemma count_calls_app kind a b :
  count_calls kind (a ++ b) = (count_calls kind a + count_calls kind b)%nat.
Proof. unfold count_calls. now rewrite filter_app, length_app. Qed.

Lemma status_trace_cases rt w ctx query t :
  snd (status_handle rt w ctx query t) = t
  \/ exists fn,
       snd (status_handle rt w ctx query t) = t ++ [HTTPGet fn]
       \/ exists prompt,
            snd (status_handle rt w ctx query t)
            = t ++ [HTTPGet fn; LLMCall prompt].
Proof.
  destruct (_extract_flight_number rt query) as [fn |] eqn:E.
  - right. exists fn. rewrite (status_handle_found rt w ctx query fn E).
    unfold try_except, status_lookup, bind.
    pose proof (fetch_trace w fn t) as Ht.
    destruct (_fetch_flight_data w fn t) as [[fd | e] t1]; cbn [snd] in Ht;
      subst t1; [| left; reflexivity].
    destruct (negb (truthy fd)); [left; reflexivity |].
    unfold lift.
    destruct (_format_flight_status rt ctx fn fd) as [report | e];
      [| left; reflexivity].
    right. exists (summary_prompt report).
    unfold generate_content, call.
    destruct (gemini w (summary_prompt report)); cbn [snd ret];
      now rewrite <- app_assoc.
  - left. unfold status_handle. rewrite E. reflexivity.
Qed.

Lemma dispatch_budget rt w ctx b q t :
  exists new,
    snd (dispatch rt w ctx b q t) = t ++ new
    /\ (List.length new <= 3)%nat
    /\ (count_calls is_http_call new <= 1)%nat
    /\ (count_calls is_bq_call new <= 1)%nat.
Proof.
  unfold dispatch. destruct b.
  - unfold bind, lift.
    destruct (status_agent_init w ctx) as [ctx' | e].
    + destruct (status_trace_cases rt w ctx' q t)
        as [-> | (fn & [-> | (p & ->)])].
      * exists []. rewrite app_nil_r. repeat split; unfold count_calls; simpl; try reflexivity; lia.
      * eexists. split; [reflexivity |]. repeat split; unfold count_calls; simpl; try reflexivity; lia.
      * eexists. split; [reflexivity |]. repeat split; unfold count_calls; simpl; try reflexivity; lia.
    + exists []. cbn [snd]. rewrite app_nil_r. repeat split; unfold count_calls; simpl; try reflexivity; lia.
  - destruct (analytics_trace_cases rt w q t)
      as (rest & -> & [-> | (sql & ps & [-> | (p & ->)])]);
      eexists; (split; [reflexivity |]); repeat split; unfold count_calls; simpl; try reflexivity; lia.
Qed.

(** X21. One request makes at most four external calls: at most one
    classification call, then either at most one call of the flight
    endpoint and one summary call, or the SQL-generation call, at most one
    warehouse query and one summary call.  No call is ever repeated: the
    flight endpoint and the warehouse are each called at most once per
    request. *)
Theorem chat_call_budget rt w s r t :
  exists new,
    snd (chat rt w s r t) = t ++ new
    /\ (List.length new <= 4)%nat
    /\ (count_calls is_http_call new <= 1)%nat
    /\ (count_calls is_bq_call new <= 1)%nat.
Proof.
  unfold chat. destruct (chat_prepare rt s r) as [q' s'].
  assert (Hr : exists nr,
            snd (router_handle rt w q' t) = t ++ nr
            /\ (nr = [] \/ exists p, nr = [LLMCall p])).
  { destruct (router_regex_hit rt q') eqn:Hh.
    - rewrite (router_hit rt w q' t Hh). exists []. cbn [snd].
      rewrite app_nil_r. auto.
    - rewrite (router_miss rt w q' t Hh). eexists. split; [reflexivity |].
      right. eexists. reflexivity. }
  destruct Hr as (nr & Hr & Hnr).
  assert (Hnr' : (List.length nr <= 1)%nat
                 /\ count_calls is_http_call nr = 0%nat
                 /\ count_calls is_bq_call nr = 0%nat).
  { destruct Hnr as [-> | (p & ->)]; repeat split; unfold count_calls; simpl; try reflexivity; lia. }
  destruct Hnr' as (Hlen & Hhttp & Hbq).
  unfold bind at 1.
  destruct (router_handle rt w q' t) as [[a | e] t1]; cbn [snd] in Hr;
    subst t1.
  2: { exists nr. cbn [snd]. repeat split; auto; lia. }
  unfold bind at 1, lift.
  destruct (routed_to_status a) as [b | e].
  2: { exists nr. cbn [snd]. repeat split; auto; lia. }
  unfold bind, ret.
  destruct (dispatch_budget rt w (default (user_context s) (PDict [])) b q'
              (t ++ nr)) as (nd & Hd & Hdl & Hdh & Hdb).
  destruct (dispatch rt w _ b q' (t ++ nr)) as [[resp | e] t2];
    cbn [snd] in *; subst t2; exists (nr ++ nd);
    rewrite app_assoc, length_app, !count_calls_app;
    repeat split; auto; lia.
Qed.
